(** * Inventory management system: a shallow embedding of
      [inventory_system.py] and the properties of its store.

    The embedding follows the Python source function by function.

    - Python values that can sit in a product's fields are the values the
      front end passes (str, int, float) and the values [json.load] builds
      (None, bool, int, float, str, list, dict with str keys): [pyval].
    - A method that mutates [self] is a function from the state of [self] to
      the outcome of the call and the state left behind, also when the call
      raises: [M].
    - The [_products] dict is an insertion-ordered dict: an association list
      with the dict's own operations ([Dict]).
    - The collaborators that are not code of this repository are taken at
      their interface: [open]/[json.load] hand over a parsed document or
      raise, [json.dump] receives a document, [datetime.strptime] is a
      parameter, and [datetime.today] is a sequence of clock readings;
      [str.lower], [sum] and the repetition of a sequence are parameters
      of the functions that call them. *)

From Stdlib Require Import ZArith List String Ascii Bool Lia Permutation.
From Stdlib Require Import Floats.SpecFloat.
Import ListNotations.
Local Open Scope string_scope.
Local Open Scope Z_scope.
Local Open Scope list_scope.

(** ** Python values *)

Module Py.

Set Warnings "-register-all".

(** A [float] is an IEEE-754 binary64 number ([SpecFloat.spec_float] read at
    precision 53 and maximal exponent 1024). *)
Inductive pyval : Type :=
| PNone
| PBool (b : bool)
| PInt (z : Z)
| PFloat (f : spec_float)
| PStr (s : string)
| PList (l : list pyval)
| PDict (d : list (string * pyval)).

Definition prec : Z := 53.
Definition emax : Z := 1024.

(** [type(v).__name__], as the runtime prints it in its messages. *)
Definition type_name (v : pyval) : string :=
  match v with
  | PNone => "NoneType"
  | PBool _ => "bool"
  | PInt _ => "int"
  | PFloat _ => "float"
  | PStr _ => "str"
  | PList _ => "list"
  | PDict _ => "dict"
  end.

(** *** Dict keys

    Two keys are the same key of a dict when they are equal with [==] (and
    hash alike): [1], [1.0] and [True] are one key, [0.0] and [-0.0] too.
    [key] is the class of a hashable value under that equality: a number is
    kept as [m * 2^e] with [m] odd (or [0 * 2^0]).  A NaN is its own key
    only by object identity, which values do not have here: all NaNs share
    [KNaN]. *)
Inductive key : Type :=
| KNone
| KNum (m e : Z)
| KInf (negative : bool)
| KNaN
| KStr (s : string).

(** *** Exceptions

    Messages built by an f-string carry the formatted value instead of its
    text: [OutOfStockError name] is
    [OutOfStockError(f"Not enough stock for product {name}")],
    [UnknownProductType c] is the message [f"Unknown product type: {c}"] and
    [ErrorLoadingData e] is the message [f"Error loading data: {e}"]. *)
Inductive type_error : Type :=
| Unhashable (type : string)
| NotIterable (type : string)
| NotSupported (op : string) (left right : string)
| UnexpectedKeyword (k : string)
| MultipleValues (k : string)
| MissingArguments (names : list string)
| NotAnInteger (type : string)
| StrptimeArgument (type : string).

Inductive exn : Type :=
| TypeError (why : type_error)
| KeyError (k : key)
| AttributeError (type attr : string)
| ValueError (msg : string)
| OverflowError (msg : string)
| OSError (msg : string)
| JSONDecodeError (msg : string)
| InventoryError (msg : string)
| DuplicateProductIDError (msg : string)
| OutOfStockError (name : pyval)
| InvalidProductDataError (msg : load_message)
with load_message : Type :=
| UnknownProductType (cls_name : pyval)
| ErrorLoadingData (cause : exn).

(** The exception classes and [issubclass] between them: the four classes
    of the source, [class InventoryError(Exception)] and its three
    subclasses, and the builtins. *)
Inductive exn_class : Type :=
| CException
| CBuiltin
| CInventoryError
| CDuplicateProductIDError
| COutOfStockError
| CInvalidProductDataError.

Definition class_of (e : exn) : exn_class :=
  match e with
  | InventoryError _ => CInventoryError
  | DuplicateProductIDError _ => CDuplicateProductIDError
  | OutOfStockError _ => COutOfStockError
  | InvalidProductDataError _ => CInvalidProductDataError
  | _ => CBuiltin
  end.

Definition issubclass (c d : exn_class) : bool :=
  match d, c with
  | CException, _ => true
  | CBuiltin, CBuiltin => true
  | CInventoryError,
    (CInventoryError | CDuplicateProductIDError
     | COutOfStockError | CInvalidProductDataError) => true
  | CDuplicateProductIDError, CDuplicateProductIDError => true
  | COutOfStockError, COutOfStockError => true
  | CInvalidProductDataError, CInvalidProductDataError => true
  | _, _ => false
  end.

(** [isinstance(e, d)]: what [except d] catches. *)
Definition isinstance (e : exn) (d : exn_class) : bool :=
  issubclass (class_of e) d.

(** *** Outcomes and the state-and-exception monad *)

Inductive outcome (A : Type) : Type :=
| Returns (a : A)
| Raises (e : exn).
Arguments Returns {A} a.
Arguments Raises {A} e.

Definition M (S A : Type) : Type := S -> outcome A * S.

Definition ret {S A} (a : A) : M S A := fun s => (Returns a, s).
Definition raise {S A} (e : exn) : M S A := fun s => (Raises e, s).
Definition bind {S A B} (m : M S A) (k : A -> M S B) : M S B :=
  fun s =>
    match m s with
    | (Returns a, s') => k a s'
    | (Raises e, s') => (Raises e, s')
    end.
Definition get {S} : M S S := fun s => (Returns s, s).
Definition put {S} (s : S) : M S unit := fun _ => (Returns tt, s).
(** An expression that reads no state, evaluated inside a method. *)
Definition lift {S A} (o : outcome A) : M S A := fun s => (o, s).
(** [try: body / except Exception as e: raise h(e)]. *)
Definition try_except {S A} (body : M S A) (h : exn -> exn) : M S A :=
  fun s =>
    match body s with
    | (Returns a, s') => (Returns a, s')
    | (Raises e, s') => (Raises (h e), s')
    end.

Definition obind {A B} (o : outcome A) (k : A -> outcome B) : outcome B :=
  match o with
  | Returns a => k a
  | Raises e => Raises e
  end.

End Py.
Export Py.

Declare Scope py_scope.
Delimit Scope py_scope with py.
Notation "x <- m ;; k" := (bind m (fun x => k))
  (at level 61, m at next level, right associativity) : py_scope.
Notation "m ;;; k" := (bind m (fun _ => k))
  (at level 61, right associativity) : py_scope.
Notation "'let?' x := o 'in' k" := (obind o (fun x => k))
  (at level 61, x pattern, o at next level, right associativity) : py_scope.
Local Open Scope py_scope.

(** ** Hashing, comparison and arithmetic of Python values *)

Module PyOps.

(** *** Hashing *)

Fixpoint odd_part (p : positive) (e : Z) : positive * Z :=
  match p with
  | xO p' => odd_part p' (e + 1)
  | _ => (p, e)
  end.

Definition dyadic (negative : bool) (m : positive) (e : Z) : key :=
  let '(m', e') := odd_part m e in
  KNum (if negative then Zneg m' else Zpos m') e'.

Definition int_key (z : Z) : key :=
  match z with
  | Z0 => KNum 0 0
  | Zpos p => dyadic false p 0
  | Zneg p => dyadic true p 0
  end.

Definition float_key (f : spec_float) : key :=
  match f with
  | S754_zero _ => KNum 0 0
  | S754_infinity s => KInf s
  | S754_nan => KNaN
  | S754_finite s m e => dyadic s m e
  end.

(** [hash(v)], as far as a dict needs it: lists and dicts are unhashable. *)
Definition py_hash (v : pyval) : outcome key :=
  match v with
  | PNone => Returns KNone
  | PBool b => Returns (int_key (Z.b2z b))
  | PInt z => Returns (int_key z)
  | PFloat f => Returns (float_key f)
  | PStr s => Returns (KStr s)
  | PList _ | PDict _ => Raises (TypeError (Unhashable (type_name v)))
  end.

Definition key_eqb (a b : key) : bool :=
  match a, b with
  | KNone, KNone => true
  | KNum m e, KNum m' e' => (m =? m') && (e =? e')
  | KInf s, KInf s' => Bool.eqb s s'
  | KNaN, KNaN => true
  | KStr s, KStr s' => String.eqb s s'
  | _, _ => false
  end.

(** *** [int] against a field value

    The quantity a caller passes to [sell] and [restock] is an [int]; the
    stock it meets is whatever the product was built with. *)

(** [float(z)]: round to nearest even, [OverflowError] past the largest
    double. *)
Definition float_of_int (z : Z) : outcome spec_float :=
  match binary_normalize prec emax z 0 false with
  | S754_infinity _ =>
      Raises (OverflowError "int too large to convert to float")
  | f => Returns f
  end.

(** [z > f] for an int and a float compares the exact values. *)
Definition int_gt_float (z : Z) (f : spec_float) : bool :=
  match f with
  | S754_nan => false
  | S754_infinity negative => negative
  | S754_zero _ => z >? 0
  | S754_finite s m e =>
      let v := if s then Zneg m else Zpos m in
      if 0 <=? e then z >? v * 2 ^ e else z * 2 ^ (- e) >? v
  end.

(** [quantity > stock] *)
Definition int_gt (quantity : Z) (stock : pyval) : outcome bool :=
  match stock with
  | PBool b => Returns (quantity >? Z.b2z b)
  | PInt n => Returns (quantity >? n)
  | PFloat f => Returns (int_gt_float quantity f)
  | _ => Raises (TypeError (NotSupported ">" "int" (type_name stock)))
  end.

(** [stock -= quantity] *)
Definition isub_int (stock : pyval) (quantity : Z) : outcome pyval :=
  match stock with
  | PBool b => Returns (PInt (Z.b2z b - quantity))
  | PInt n => Returns (PInt (n - quantity))
  | PFloat f =>
      let? q := float_of_int quantity in
      Returns (PFloat (SFsub prec emax f q))
  | _ => Raises (TypeError (NotSupported "-=" (type_name stock) "int"))
  end.

(** [stock += amount] *)
Definition iadd_int (stock : pyval) (amount : Z) : outcome pyval :=
  match stock with
  | PBool b => Returns (PInt (Z.b2z b + amount))
  | PInt n => Returns (PInt (n + amount))
  | PFloat f =>
      let? a := float_of_int amount in
      Returns (PFloat (SFadd prec emax f a))
  | PList _ => Raises (TypeError (NotIterable "int"))
  | _ => Raises (TypeError (NotSupported "+=" (type_name stock) "int"))
  end.

(** [for x in v]: the items a [for] loop sees, for the values a parsed
    document can be.  A str yields its characters (here one per byte; each
    is a str again). *)
Fixpoint chars (s : string) : list pyval :=
  match s with
  | EmptyString => []
  | String c s' => PStr (String c EmptyString) :: chars s'
  end.

Definition iterate (v : pyval) : outcome (list pyval) :=
  match v with
  | PList l => Returns l
  | PDict d => Returns (map (fun kv => PStr (fst kv)) d)
  | PStr s => Returns (chars s)
  | _ => Raises (TypeError (NotIterable (type_name v)))
  end.

End PyOps.
Export PyOps.

(** ** The insertion-ordered dict

    [_products] maps the hash key of a product id to the product.  A Python
    dict keeps its entries in insertion order; assigning to a key that is
    present replaces the value where it stands, assigning to a new key
    appends. *)

Module Dict.

Section Dict.
Context {V : Type}.

Definition dict : Type := list (key * V).

(** [k in d] *)
Definition contains (k : key) (d : dict) : bool :=
  existsb (fun kv => key_eqb k (fst kv)) d.

(** [d[k]]; [None] stands for [KeyError]. *)
Fixpoint getitem (k : key) (d : dict) : option V :=
  match d with
  | [] => None
  | (k', v) :: d' => if key_eqb k k' then Some v else getitem k d'
  end.

(** [d[k] = v] *)
Fixpoint setitem (k : key) (v : V) (d : dict) : dict :=
  match d with
  | [] => [(k, v)]
  | (k', v') :: d' =>
      if key_eqb k k' then (k', v) :: d' else (k', v') :: setitem k v d'
  end.

(** The dict without its entry for [k], if it has one. *)
Fixpoint remove (k : key) (d : dict) : dict :=
  match d with
  | [] => []
  | (k', v') :: d' => if key_eqb k k' then d' else (k', v') :: remove k d'
  end.

(** [del d[k]] *)
Definition delitem (k : key) : M dict unit :=
  fun d => if contains k d then (Returns tt, remove k d)
           else (Raises (KeyError k), d).

(** [d.keys()], [d.values()], [d.items()] *)
Definition keys (d : dict) : list key := map fst d.
Definition values (d : dict) : list V := map snd d.
Definition items (d : dict) : list (key * V) := d.

End Dict.
Arguments dict V : clear implicits.

End Dict.

(** ** Products

    [class Product(ABC)] is abstract: every product is an [Electronics], a
    [Grocery] or a [Clothing].  Each constructor takes the arguments of the
    class's [__init__], in its order; no [__init__] checks them. *)

Module Products.

Inductive Product : Type :=
| Electronics
    (product_id name price quantity_in_stock warranty_years brand : pyval)
| Grocery (product_id name price quantity_in_stock expiry_date : pyval)
| Clothing (product_id name price quantity_in_stock size material : pyval).

(** [self.__class__.__name__] *)
Definition class_name (self : Product) : string :=
  match self with
  | Electronics _ _ _ _ _ _ => "Electronics"
  | Grocery _ _ _ _ _ => "Grocery"
  | Clothing _ _ _ _ _ _ => "Clothing"
  end.

(** The attributes set by [Product.__init__]. *)
Definition _product_id (self : Product) : pyval :=
  match self with
  | Electronics i _ _ _ _ _ | Grocery i _ _ _ _ | Clothing i _ _ _ _ _ => i
  end.

Definition _name (self : Product) : pyval :=
  match self with
  | Electronics _ n _ _ _ _ | Grocery _ n _ _ _ | Clothing _ n _ _ _ _ => n
  end.

Definition _price (self : Product) : pyval :=
  match self with
  | Electronics _ _ p _ _ _ | Grocery _ _ p _ _ | Clothing _ _ p _ _ _ => p
  end.

Definition _quantity_in_stock (self : Product) : pyval :=
  match self with
  | Electronics _ _ _ q _ _ | Grocery _ _ _ q _ | Clothing _ _ _ q _ _ => q
  end.

(** [self._quantity_in_stock = q] *)
Definition set_quantity_in_stock (q : pyval) (self : Product) : Product :=
  match self with
  | Electronics i n p _ w b => Electronics i n p q w b
  | Grocery i n p _ e => Grocery i n p q e
  | Clothing i n p _ s m => Clothing i n p q s m
  end.

(** [isinstance(p, Grocery)] *)
Definition isinstance_Grocery (p : Product) : bool :=
  match p with
  | Grocery _ _ _ _ _ => true
  | _ => false
  end.

(** [Product.restock]:
    [self._quantity_in_stock += amount] *)
Definition restock (amount : Z) : M Product unit :=
  self <- get ;;
  q <- lift (iadd_int (_quantity_in_stock self) amount) ;;
  put (set_quantity_in_stock q self).

(** [Product.sell]:
    [if quantity > self._quantity_in_stock: raise OutOfStockError(...)]
    [self._quantity_in_stock -= quantity] *)
Definition sell (quantity : Z) : M Product unit :=
  self <- get ;;
  short <- lift (int_gt quantity (_quantity_in_stock self)) ;;
  if (short : bool) then raise (OutOfStockError (_name self))
  else
    q <- lift (isub_int (_quantity_in_stock self) quantity) ;;
    put (set_quantity_in_stock q self).

(** [to_dict]: the base class's five entries, then what the subclass's
    [data.update] adds. *)
Definition to_dict (self : Product) : list (string * pyval) :=
  let data :=
    [ ("type", PStr (class_name self));
      ("product_id", _product_id self);
      ("name", _name self);
      ("price", _price self);
      ("quantity_in_stock", _quantity_in_stock self) ] in
  match self with
  | Electronics _ _ _ _ warranty_years brand =>
      data ++ [("warranty_years", warranty_years); ("brand", brand)]
  | Grocery _ _ _ _ expiry_date =>
      data ++ [("expiry_date", expiry_date)]
  | Clothing _ _ _ _ size material =>
      data ++ [("size", size); ("material", material)]
  end.

(** *** Dates and [Grocery.is_expired] *)

Record date : Type := Date { year : Z; month : Z; day : Z }.

(** [a < b] on [datetime.date]: by year, then month, then day. *)
Definition date_ltb (a b : date) : bool :=
  (year a <? year b)
  || ((year a =? year b)
      && ((month a <? month b)
          || ((month a =? month b) && (day a <? day b)))).

Section Expiry.

(** [datetime.strptime(s, "%Y-%m-%d").date()] for a str [s]: the date, or
    the [ValueError] of the library. *)
Variable strptime : string -> outcome date.

(** [Grocery.is_expired], with the reading [today] of
    [datetime.today().date()] the call takes.  The left operand is
    evaluated first; only a [Grocery] has the method. *)
Definition is_expired (today : date) (self : Product) : outcome bool :=
  match self with
  | Grocery _ _ _ _ (PStr s) =>
      let? d := strptime s in Returns (date_ltb d today)
  | Grocery _ _ _ _ v => Raises (TypeError (StrptimeArgument (type_name v)))
  | _ => Raises (AttributeError (class_name self) "is_expired")
  end.

End Expiry.

End Products.
Export Products.

(** ** A [strptime] for ASCII date strings

    [datetime.strptime(s, "%Y-%m-%d").date()] as CPython's [_strptime]
    computes it on a str of ASCII characters: the regular expression
    [(\d\d\d\d)-(1[0-2]|0[1-9]|[1-9])-(3[0-1]|[1-2]\d|0[1-9]|[1-9]| [1-9])]
    must match a prefix and leave nothing over, and the three numbers must
    be a date of the calendar.  The theorems below hold for every [strptime];
    this one runs the examples. *)

Module Strptime.

Definition digit (c : ascii) : option Z :=
  let n := Z.of_nat (nat_of_ascii c) in
  if (48 <=? n) && (n <=? 57) then Some (n - 48) else None.

Definition is_leap (y : Z) : bool :=
  ((y mod 4 =? 0) && negb (y mod 100 =? 0)) || (y mod 400 =? 0).

Definition days_in_month (y m : Z) : Z :=
  if m =? 2 then (if is_leap y then 29 else 28)
  else if (m =? 4) || (m =? 6) || (m =? 9) || (m =? 11) then 30
  else 31.

(** [%Y]: four digits. *)
Definition parse_Y (s : list ascii) : option (Z * list ascii) :=
  match s with
  | a :: b :: c :: d :: rest =>
      match digit a, digit b, digit c, digit d with
      | Some a, Some b, Some c, Some d =>
          Some (1000 * a + 100 * b + 10 * c + d, rest)
      | _, _, _, _ => None
      end
  | _ => None
  end.

(** [%m-]: the first alternative that the literal [-] can follow. *)
Definition parse_m_dash (s : list ascii) : option (Z * list ascii) :=
  match s with
  | a :: "-"%char :: rest =>
      match digit a with
      | Some a => if 1 <=? a then Some (a, rest) else None
      | None => None
      end
  | a :: b :: "-"%char :: rest =>
      match digit a, digit b with
      | Some 1, Some b => if b <=? 2 then Some (10 + b, rest) else None
      | Some 0, Some b => if 1 <=? b then Some (b, rest) else None
      | _, _ => None
      end
  | _ => None
  end.

(** [%d]: the first alternative that matches; the rest is what remains
    unconverted. *)
Definition parse_d (s : list ascii) : option (Z * list ascii) :=
  let one :=
    match s with
    | a :: rest =>
        match digit a with
        | Some a => if 1 <=? a then Some (a, rest) else None
        | None => None
        end
    | [] => None
    end in
  match s with
  | a :: b :: rest =>
      match a, digit a, digit b with
      | _, Some 3, Some b => if b <=? 1 then Some (30 + b, rest) else one
      | _, Some 1, Some b => Some (10 + b, rest)
      | _, Some 2, Some b => Some (20 + b, rest)
      | _, Some 0, Some b => if 1 <=? b then Some (b, rest) else one
      | " "%char, _, Some b => if 1 <=? b then Some (b, rest) else one
      | _, _, _ => one
      end
  | _ => one
  end.

Definition no_match : exn := ValueError "time data does not match format".

Definition strptime (s : string) : outcome date :=
  match parse_Y (list_ascii_of_string s) with
  | Some (y, "-"%char :: s1) =>
      match parse_m_dash s1 with
      | Some (m, s2) =>
          match parse_d s2 with
          | Some (d, []) =>
              if y =? 0 then Raises (ValueError "year 0 is out of range")
              else if d <=? days_in_month y m then Returns (Date y m d)
              else Raises (ValueError "day is out of range for month")
          | Some (_, _ :: _) => Raises (ValueError "unconverted data remains")
          | None => Raises no_match
          end
      | None => Raises no_match
      end
  | _ => Raises no_match
  end.

End Strptime.

(** ** Keyword arguments and records *)

Module Records.

(** A dict with str keys, as [json.load] builds one and [to_dict] returns
    one.  A Python dict has no two entries under one key; the functions
    read the first. *)
Definition record : Type := list (string * pyval).

Fixpoint lookup (k : string) (d : record) : option pyval :=
  match d with
  | [] => None
  | (k', v) :: d' => if String.eqb k k' then Some v else lookup k d'
  end.

Fixpoint discard (k : string) (d : record) : record :=
  match d with
  | [] => []
  | (k', v) :: d' => if String.eqb k k' then d' else (k', v) :: discard k d'
  end.

Definition mem (k : string) (l : list string) : bool :=
  existsb (String.eqb k) l.

(** [item.pop(k)] on whatever [item] is: the value and what is left of the
    dict; a list wants an index; nothing else has a [pop]. *)
Definition pop (k : string) (item : pyval) : outcome (pyval * record) :=
  match item with
  | PDict d =>
      match lookup k d with
      | Some v => Returns (v, discard k d)
      | None => Raises (KeyError (KStr k))
      end
  | PList _ => Raises (TypeError (NotAnInteger "str"))
  | _ => Raises (AttributeError (type_name item) "pop")
  end.

(** [v == s] for a str literal [s] *)
Definition eq_str (v : pyval) (s : string) : bool :=
  match v with
  | PStr s' => String.eqb s' s
  | _ => false
  end.

(** A call [cls(...)] with the dict [data] unpacked into keyword arguments,
    for an [__init__(self, p1, ..., pn)] without defaults: the
    keywords are taken in the dict's order, [self] is already bound, a
    keyword that is no parameter is refused; then every parameter must
    have a value.  The result reads the argument bound to a parameter. *)
Fixpoint first_bad_keyword (params : list string) (data : record)
  : option type_error :=
  match data with
  | [] => None
  | (k, _) :: data' =>
      if String.eqb k "self" then Some (MultipleValues k)
      else if mem k params then first_bad_keyword params data'
      else Some (UnexpectedKeyword k)
  end.

Definition missing (params : list string) (data : record) : list string :=
  filter (fun p => match lookup p data with None => true | _ => false end)
         params.

Definition bind_keywords (params : list string) (data : record)
  : outcome (string -> pyval) :=
  match first_bad_keyword params data with
  | Some why => Raises (TypeError why)
  | None =>
      match missing params data with
      | [] => Returns (fun p => match lookup p data with
                                | Some v => v
                                | None => PNone
                                end)
      | names => Raises (TypeError (MissingArguments names))
      end
  end.

Definition Product_params : list string :=
  ["product_id"; "name"; "price"; "quantity_in_stock"].
Definition Electronics_params : list string :=
  Product_params ++ ["warranty_years"; "brand"].
Definition Grocery_params : list string :=
  Product_params ++ ["expiry_date"].
Definition Clothing_params : list string :=
  Product_params ++ ["size"; "material"].

(** The three constructor calls of [_create_product_from_dict], each with
    [data] unpacked into keyword arguments. *)
Definition Electronics_of (data : record) : outcome Product :=
  let? arg := bind_keywords Electronics_params data in
  Returns (Electronics (arg "product_id") (arg "name") (arg "price")
             (arg "quantity_in_stock") (arg "warranty_years") (arg "brand")).

Definition Grocery_of (data : record) : outcome Product :=
  let? arg := bind_keywords Grocery_params data in
  Returns (Grocery (arg "product_id") (arg "name") (arg "price")
             (arg "quantity_in_stock") (arg "expiry_date")).

Definition Clothing_of (data : record) : outcome Product :=
  let? arg := bind_keywords Clothing_params data in
  Returns (Clothing (arg "product_id") (arg "name") (arg "price")
             (arg "quantity_in_stock") (arg "size") (arg "material")).

End Records.
Export Records.

(** ** The inventory *)

Module Inventory.

Import Dict.

(** The state of an [Inventory] object is its [_products] dict. *)
Definition Inventory : Type := dict Product.

(** [Inventory()] *)
Definition init : Inventory := [].

(** Run a method of the object stored under [k]: [self._products[k].m()].
    The dict holds the object itself, so what the method does to it is seen
    in the dict. *)
Definition on_product {A} (k : key) (m : M Product A) : M Inventory A :=
  fun products =>
    match getitem k products with
    | Some p => let '(r, p') := m p in (r, setitem k p' products)
    | None => (Raises (KeyError k), products)
    end.

(** [add_product] *)
Definition add_product (product : Product) : M Inventory unit :=
  k <- lift (py_hash (_product_id product)) ;;
  products <- get ;;
  if contains k products
  then raise (DuplicateProductIDError "Product ID already exists.")
  else put (setitem k product products).

(** [remove_product]: [self._products.pop(product_id, None)].  [dict.pop]
    on an empty dict returns the default without hashing the key. *)
Definition remove_product (product_id : pyval) : M Inventory unit :=
  products <- get ;;
  match products with
  | [] => ret tt
  | _ => k <- lift (py_hash product_id) ;; put (remove k products)
  end.

(** [list_all_products] *)
Definition list_all_products (self : Inventory) : list Product :=
  values self.

(** [sell_product] *)
Definition sell_product (product_id : pyval) (quantity : Z)
  : M Inventory unit :=
  k <- lift (py_hash product_id) ;;
  products <- get ;;
  if negb (contains k products)
  then raise (InventoryError "Product not found.")
  else on_product k (sell quantity).

(** [restock_product] *)
Definition restock_product (product_id : pyval) (quantity : Z)
  : M Inventory unit :=
  k <- lift (py_hash product_id) ;;
  products <- get ;;
  if negb (contains k products)
  then raise (InventoryError "Product not found.")
  else on_product k (restock quantity).

(** [for x in xs: body(x)] *)
Fixpoint for_each {S A} (xs : list A) (body : A -> M S unit) : M S unit :=
  match xs with
  | [] => ret tt
  | x :: xs' => body x ;;; for_each xs' body
  end.

Section Expiry.

Variable strptime : string -> outcome date.

(** [datetime.today().date()] is read anew by every call of [is_expired]:
    [clock n] is the reading number [n] that one call of
    [remove_expired_products] takes. *)
Variable clock : nat -> date.

(** [[pid for pid, p in items if isinstance(p, Grocery) and p.is_expired()]],
    with [n] clock readings taken so far. *)
Fixpoint expired_ids (n : nat) (items : list (key * Product))
  : outcome (list key) :=
  match items with
  | [] => Returns []
  | (pid, p) :: items' =>
      if isinstance_Grocery p then
        let? expired := is_expired strptime (clock n) p in
        let? rest := expired_ids (S n) items' in
        Returns (if (expired : bool) then pid :: rest else rest)
      else expired_ids n items'
  end.

(** [remove_expired_products] *)
Definition remove_expired_products : M Inventory unit :=
  products <- get ;;
  to_remove <- lift (expired_ids 0 (items products)) ;;
  for_each to_remove delitem.

End Expiry.

(** [save_to_file]: the document handed to [json.dump]. *)
Definition save_to_file (self : Inventory) : pyval :=
  PList (map (fun p => PDict (to_dict p)) (values self)).

(** [_create_product_from_dict] *)
Definition _create_product_from_dict (cls_name : pyval) (data : record)
  : outcome Product :=
  if eq_str cls_name "Electronics" then Electronics_of data
  else if eq_str cls_name "Grocery" then Grocery_of data
  else if eq_str cls_name "Clothing" then Clothing_of data
  else Raises (InvalidProductDataError (UnknownProductType cls_name)).

(** The body of the loop of [load_from_file]. *)
Definition load_item (item : pyval) : M Inventory unit :=
  popped <- lift (pop "type" item) ;;
  let '(cls_name, item') := popped in
  product <- lift (_create_product_from_dict cls_name item') ;;
  k <- lift (py_hash (_product_id product)) ;;
  products <- get ;;
  put (setitem k product products).

(** [load_from_file].  [file] is what [open(filename, "r")] and
    [json.load(f)] come to: the parsed document, or the exception one of
    them raises. *)
Definition load_from_file (file : outcome pyval) : M Inventory unit :=
  try_except
    (data <- lift file ;;
     items <- lift (iterate data) ;;
     for_each items load_item)
    (fun e => InvalidProductDataError (ErrorLoadingData e)).

End Inventory.
Export Inventory.

(** ** Searching and valuing the inventory *)

Module Queries.

Import Dict.

(** [needle in hay] for two strs: [needle] occurs in [hay]. *)
Fixpoint str_contains (needle hay : string) : bool :=
  String.prefix needle hay
  || match hay with
     | EmptyString => false
     | String _ hay' => str_contains needle hay'
     end.

(** [str.lower] on ASCII letters; the examples run with it. *)
Definition ascii_lower_char (c : ascii) : ascii :=
  let n := nat_of_ascii c in
  if (Nat.leb 65 n && Nat.leb n 90)%bool then ascii_of_nat (n + 32) else c.

Fixpoint ascii_lower (s : string) : string :=
  match s with
  | EmptyString => EmptyString
  | String c s' => String (ascii_lower_char c) (ascii_lower s')
  end.

Section Search.

(** [s.lower()] for a str [s], as the runtime computes it. *)
Variable lower : string -> string.

(** [search_by_name]:
    [[p for p in self._products.values()
        if name.lower() in p._name.lower()]].
    The condition is evaluated for every product in turn; a [_name] that is
    no str has no [lower]. *)
Fixpoint search_names (name : string) (ps : list Product)
  : outcome (list Product) :=
  match ps with
  | [] => Returns []
  | p :: ps' =>
      match _name p with
      | PStr n =>
          let found := str_contains (lower name) (lower n) in
          let? rest := search_names name ps' in
          Returns (if found then p :: rest else rest)
      | v => Raises (AttributeError (type_name v) "lower")
      end
  end.

Definition search_by_name (name : string) (self : Inventory)
  : outcome (list Product) :=
  search_names name (values self).

(** [search_by_type]:
    [[p for p in self._products.values()
        if p.__class__.__name__.lower() == product_type.lower()]] *)
Definition search_by_type (product_type : string) (self : Inventory)
  : list Product :=
  filter (fun p => String.eqb (lower (class_name p)) (lower product_type))
         (values self).

End Search.

(** A bool, an int or a float as a number: a bool is the int 0 or 1. *)
Inductive number : Type :=
| NInt (z : Z)
| NFloat (f : spec_float).

Definition as_number (v : pyval) : option number :=
  match v with
  | PBool b => Some (NInt (Z.b2z b))
  | PInt z => Some (NInt z)
  | PFloat f => Some (NFloat f)
  | _ => None
  end.

Definition as_int (v : pyval) : option Z :=
  match v with
  | PBool b => Some (Z.b2z b)
  | PInt z => Some z
  | _ => None
  end.

Definition is_seq (v : pyval) : bool :=
  match v with
  | PStr _ | PList _ => true
  | _ => false
  end.

(** Arithmetic of two numbers: ints stay ints; an int that meets a float
    becomes a float first. *)
Definition arith (on_int : Z -> Z -> Z)
           (on_float : spec_float -> spec_float -> spec_float)
           (a b : number) : outcome pyval :=
  match a, b with
  | NInt x, NInt y => Returns (PInt (on_int x y))
  | NInt x, NFloat g =>
      let? f := float_of_int x in Returns (PFloat (on_float f g))
  | NFloat f, NInt y =>
      let? g := float_of_int y in Returns (PFloat (on_float f g))
  | NFloat f, NFloat g => Returns (PFloat (on_float f g))
  end.

Section Valuation.

(** [seq * n] for a str or a list [seq] and an int [n]: the repeated
    sequence, or the error of a runtime that cannot hold it. *)
Variable repeat_seq : pyval -> Z -> outcome pyval.

(** [sum(items)] for the values that a generator yields or fails to yield,
    starting from the int [0]. *)
Variable py_sum : list (outcome pyval) -> outcome pyval.

(** [a * b]: numbers multiply, a sequence is repeated by an int, and
    nothing else has a product. *)
Definition py_mul (a b : pyval) : outcome pyval :=
  match as_number a, as_number b with
  | Some x, Some y => arith Z.mul (SFmul prec emax) x y
  | _, _ =>
      if is_seq a then
        match as_int b with
        | Some n => repeat_seq a n
        | None => Raises (TypeError (NotAnInteger (type_name b)))
        end
      else if is_seq b then
        match as_int a with
        | Some n => repeat_seq b n
        | None => Raises (TypeError (NotAnInteger (type_name a)))
        end
      else Raises (TypeError (NotSupported "*" (type_name a) (type_name b)))
  end.

(** [Product.get_total_value]:
    [return self._price * self._quantity_in_stock] *)
Definition get_total_value (self : Product) : outcome pyval :=
  py_mul (_price self) (_quantity_in_stock self).

(** [total_inventory_value]:
    [sum(p.get_total_value() for p in self._products.values())] *)
Definition total_inventory_value (self : Inventory) : outcome pyval :=
  py_sum (map get_total_value (values self)).

End Valuation.

(** [sum] as CPython up to 3.11 adds: from the int [0], left to right, one
    addition at a time.  (Later versions round a sum of floats
    differently; a sum of ints is the same in all.) *)
Definition py_add (a b : pyval) : outcome pyval :=
  match as_number a, as_number b with
  | Some x, Some y => arith Z.add (SFadd prec emax) x y
  | _, _ => Raises (TypeError (NotSupported "+" (type_name a) (type_name b)))
  end.

Fixpoint sum_from (acc : pyval) (items : list (outcome pyval))
  : outcome pyval :=
  match items with
  | [] => Returns acc
  | item :: items' =>
      let? v := item in
      let? acc' := py_add acc v in
      sum_from acc' items'
  end.

Definition sum_left (items : list (outcome pyval)) : outcome pyval :=
  sum_from (PInt 0) items.

(** Repetition in a runtime with room for every sequence and an index of 63
    bits. *)
Fixpoint repeat_string (s : string) (n : nat) : string :=
  match n with
  | O => EmptyString
  | S n' => String.append s (repeat_string s n')
  end.

Definition repeat_roomy (seq : pyval) (n : Z) : outcome pyval :=
  if (n <? - 2 ^ 63) || (2 ^ 63 - 1 <? n)
  then Raises (OverflowError "cannot fit 'int' into an index-sized integer")
  else
    match seq with
    | PStr s => Returns (PStr (repeat_string s (Z.to_nat n)))
    | PList l => Returns (PList (List.concat (repeat l (Z.to_nat n))))
    | _ => Raises (TypeError (NotAnInteger (type_name seq)))
    end.

End Queries.
Export Queries.

(** ** Predicates of the specification and sample data *)

Module Spec.

Import Dict.

(** A dict has no two entries under one key, and the inventory files every
    product under the key of its own [_product_id] (both [add_product] and
    [load_from_file] do). *)
Definition well_keyed (s : Inventory) : Prop :=
  NoDup (keys s)
  /\ forall k p, In (k, p) s -> py_hash (_product_id p) = Returns k.

(** [quantity_in_stock] is a non-negative integer. *)
Definition nonneg_stock (p : Product) : bool :=
  match _quantity_in_stock p with
  | PInt n => 0 <=? n
  | _ => false
  end.

Definition stock_invariant (s : Inventory) : bool :=
  forallb (fun kp => nonneg_stock (snd kp)) s.

(** An error kind is distinct when a handler for it catches the errors of
    no other class. *)
Definition distinct_kind (e : exn) : Prop :=
  forall e', class_of e' <> class_of e -> isinstance e' (class_of e) = false.

Section Expiry.
Variable strptime : string -> outcome date.

(** A Grocery whose expiry date is strictly before [today]. *)
Definition expired_on (today : date) (p : Product) : bool :=
  isinstance_Grocery p
  && match is_expired strptime today p with
     | Returns b => b
     | Raises _ => false
     end.

(** [is_expired] does not raise on the product, whatever the day. *)
Definition readable (p : Product) : Prop :=
  forall today, exists b, is_expired strptime today p = Returns b.

(** What is left when exactly the Groceries expired on the one date [today]
    go. *)
Definition without_expired (today : date) (s : Inventory) : Inventory :=
  filter (fun kp => negb (expired_on today (snd kp))) s.

(** The clock reading that a call of [remove_expired_products] takes for
    the product filed under [k]: the clock is read once for every Grocery,
    in the order of the inventory, so the product meets the reading whose
    number is the number of Groceries that stand before it. *)
Fixpoint groceries_before (k : key) (s : Inventory) : nat :=
  match s with
  | [] => O
  | (k', p) :: s' =>
      if key_eqb k k' then O
      else ((if isinstance_Grocery p then 1 else 0)
            + groceries_before k s')%nat
  end.

(** An entry of [s] that is a Grocery and that [is_expired] finds expired
    at the reading taken for it. *)
Definition found_expired (clock : nat -> date) (s : Inventory)
           (kp : key * Product) : bool :=
  isinstance_Grocery (snd kp)
  && match is_expired strptime (clock (groceries_before (fst kp) s))
             (snd kp) with
     | Returns b => b
     | Raises _ => false
     end.

End Expiry.

(** The discriminator and the field list of a record of the file. *)
Definition known_tag (t : pyval) : bool :=
  eq_str t "Electronics" || eq_str t "Grocery" || eq_str t "Clothing".

Definition fields_of (t : pyval) : list string :=
  if eq_str t "Electronics" then Electronics_params
  else if eq_str t "Grocery" then Grocery_params
  else if eq_str t "Clothing" then Clothing_params
  else [].

Definition unknown_tag (d : record) : Prop :=
  exists t, lookup "type" d = Some t /\ known_tag t = false.

Definition no_tag (d : record) : Prop := lookup "type" d = None.

Definition missing_field (d : record) : Prop :=
  exists t f, lookup "type" d = Some t /\ known_tag t = true
              /\ In f (fields_of t) /\ lookup f d = None.

Definition extra_field (d : record) : Prop :=
  exists t f v, lookup "type" d = Some t /\ known_tag t = true
                /\ In (f, v) (discard "type" d)
                /\ ~ In f (fields_of t).

(** The key under which a record of the file would be filed. *)
Definition record_id (item : pyval) : option key :=
  match item with
  | PDict d =>
      match lookup "product_id" d with
      | Some v => match py_hash v with
                  | Returns k => Some k
                  | Raises _ => None
                  end
      | None => None
      end
  | _ => None
  end.

(** What one round of the loop of [load_from_file] computes before it
    assigns to the dict: the product and the key to file it under. *)
Definition reconstruct (item : pyval) : outcome (key * Product) :=
  let? popped := pop "type" item in
  let? product := _create_product_from_dict (fst popped) (snd popped) in
  let? k := py_hash (_product_id product) in
  Returns (k, product).

End Spec.
Export Spec.

Module Samples.

(** The products of the test suite's fixture: 999.99, 3.5 and 29.99 are the
    doubles nearest to them. *)
Definition phone : Product :=
  Electronics (PStr "E001") (PStr "Phone")
    (PFloat (S754_finite false 8796005061277778 (-43)))
    (PInt 10) (PInt 2) (PStr "Apple").

Definition milk : Product :=
  Grocery (PStr "G001") (PStr "Milk")
    (PFloat (S754_finite false 7881299347898368 (-51)))
    (PInt 20) (PStr "2024-05-10").

Definition shirt : Product :=
  Clothing (PStr "C001") (PStr "Shirt")
    (PFloat (S754_finite false 8441434551552573 (-48)))
    (PInt 15) (PStr "M") (PStr "Cotton").

Definition yogurt : Product :=
  Grocery (PStr "G002") (PStr "Yogurt")
    (PFloat (S754_finite false 5629499534213120 (-51)))
    (PInt 10) (PStr "2024-05-10").

(** A product with zero stock and zero price. *)
Definition sold_out : Product :=
  Clothing (PStr "C000") (PStr "Scarf") (PFloat (S754_zero false))
    (PInt 0) (PStr "S") (PStr "Wool").

(** A product whose stock has gone below zero. *)
Definition overdrawn : Product :=
  Electronics (PStr "E009") (PStr "Radio")
    (PFloat (S754_finite false 5629499534213120 (-51)))
    (PInt (-5)) (PInt 1) (PStr "Acme").

Definition sample_inventory : Inventory :=
  [ (KStr "E001", phone); (KStr "G001", milk); (KStr "C001", shirt) ].

Definition dairy : Inventory :=
  [ (KStr "G001", milk); (KStr "G002", yogurt); (KStr "E001", phone) ].

(** A call of [remove_expired_products] that runs over midnight: the first
    reading is 2024-05-10, the later ones 2024-05-11. *)
Definition midnight (n : nat) : date :=
  match n with
  | O => Date 2024 5 10
  | S _ => Date 2024 5 11
  end.

Definition on_day (d : date) (n : nat) : date := d.

(** A file whose second record has a discriminator that is no class. *)
Definition toy_file : pyval :=
  PList [ PDict (to_dict phone);
          PDict [("type", PStr "Toy"); ("product_id", PStr "T001")];
          PDict (to_dict shirt) ].

End Samples.

(** Filing a run of products, one after the other, as the loop of
    [load_from_file] does with the records it has read. *)
Definition file_all (d : Inventory) (kps : list (key * Product)) : Inventory :=
  fold_left (fun d kp => Dict.setitem (fst kp) (snd kp) d) kps d.

(** The worth of a product priced and counted in ints, and of an
    inventory of such products. *)
Definition whole_worth (p : Product) : Z :=
  match _price p, _quantity_in_stock p with
  | PInt a, PInt n => a * n
  | _, _ => 0
  end.

Definition whole_total (s : Inventory) : Z :=
  fold_right Z.add 0 (map whole_worth (Dict.values s)).

Definition in_whole_units (p : Product) : Prop :=
  exists a n, _price p = PInt a /\ _quantity_in_stock p = PInt n.

Module Fixtures.

(** A Grocery whose expiry date is no date. *)
Definition cheese : Product :=
  Grocery (PStr "G003") (PStr "Cheese")
    (PFloat (S754_finite false 5066549580791808 (-50)))
    (PInt 5) (PStr "next week").

Definition pantry : Inventory :=
  [ (KStr "G001", Samples.milk); (KStr "G003", cheese) ].

(** Products priced in whole units. *)
Definition pen : Product :=
  Clothing (PStr "P001") (PStr "Pen") (PInt 3) (PInt 40)
    (PStr "M") (PStr "Steel").

Definition ink : Product :=
  Grocery (PStr "I001") (PStr "Ink") (PInt 7) (PInt 5) (PStr "2030-01-01").

Definition stationery : Inventory :=
  [ (KStr "P001", pen); (KStr "I001", ink) ].

(** A product that was loaded with a name that is no str. *)
Definition nameless : Product :=
  Electronics (PStr "E404") PNone (PInt 1) (PInt 1) (PInt 0) (PStr "Acme").

Definition lost_and_found : Inventory :=
  [ (KStr "E001", Samples.phone); (KStr "E404", nameless) ].

(** A file in which two records carry one id. *)
Definition rerun_file : pyval :=
  PList [ PDict (to_dict Samples.phone);
          PDict (to_dict (set_quantity_in_stock (PInt 7) Samples.phone));
          PDict (to_dict Samples.shirt) ].

End Fixtures.

(** * Properties *)

(** ** Keys and dicts *)

Lemma key_eqb_eq (a b : key) : key_eqb a b = true <-> a = b.
Proof.
  destruct a, b; simpl; split; intro H; try discriminate; try reflexivity.
  - apply andb_true_iff in H as [Hm He].
    apply Z.eqb_eq in Hm, He. now subst.
  - injection H as -> ->. now rewrite !Z.eqb_refl.
  - apply Bool.eqb_prop in H. now subst.
  - injection H as ->. apply Bool.eqb_reflx.
  - apply String.eqb_eq in H. now subst.
  - injection H as ->. apply String.eqb_refl.
Qed.

Lemma key_eqb_refl (k : key) : key_eqb k k = true.
Proof. now apply key_eqb_eq. Qed.

Lemma key_eqb_neq (a b : key) : key_eqb a b = false <-> a <> b.
Proof.
  split.
  - intros H E. apply key_eqb_eq in E. congruence.
  - intro N. destruct (key_eqb a b) eqn:E; [|reflexivity].
    apply key_eqb_eq in E. contradiction.
Qed.

Module DictFacts.
Import Dict.

Section Facts.
Context {V : Type}.
Implicit Types (d : dict V) (k : key) (v : V).

Lemma contains_cons k k' v d :
  contains k ((k', v) :: d) = key_eqb k k' || contains k d.
Proof. reflexivity. Qed.

Lemma contains_cons_ne k k' v d :
  key_eqb k k' = false -> contains k ((k', v) :: d) = contains k d.
Proof. intro H. simpl. now rewrite H. Qed.

Lemma contains_In k d : contains k d = true <-> In k (keys d).
Proof.
  induction d as [|[k' v'] d IH]; simpl.
  - split; [discriminate | contradiction].
  - rewrite orb_true_iff, IH, key_eqb_eq. intuition congruence.
Qed.

Lemma contains_false_In k d : contains k d = false <-> ~ In k (keys d).
Proof.
  rewrite <- contains_In. destruct (contains k d); intuition congruence.
Qed.

Lemma getitem_contains k d :
  contains k d = true <-> exists v, getitem k d = Some v.
Proof.
  induction d as [|[k' v'] d IH]; simpl.
  - split; [discriminate | intros [v H]; discriminate].
  - destruct (key_eqb k k'); simpl; [|exact IH].
    split; [eauto | reflexivity].
Qed.

Lemma getitem_None k d : contains k d = false <-> getitem k d = None.
Proof.
  induction d as [|[k' v'] d IH]; simpl; [tauto|].
  destruct (key_eqb k k'); simpl; [|exact IH].
  split; discriminate.
Qed.

Lemma getitem_In k v d : getitem k d = Some v -> In (k, v) d.
Proof.
  induction d as [|[k' v'] d IH]; simpl; [discriminate|].
  destruct (key_eqb k k') eqn:E.
  - apply key_eqb_eq in E. intros [= ->]. left. now subst.
  - auto.
Qed.

Lemma In_getitem k v d : NoDup (keys d) -> In (k, v) d -> getitem k d = Some v.
Proof.
  induction d as [|[k' v'] d IH]; simpl; [contradiction|].
  intros ND [E | HIn].
  - injection E as -> ->. now rewrite key_eqb_refl.
  - inversion ND as [|? ? Hk ND']; subst.
    destruct (key_eqb k k') eqn:E; [|auto].
    apply key_eqb_eq in E. subst. exfalso. apply Hk.
    change k' with (fst (k', v)). now apply in_map.
Qed.

Lemma setitem_absent k v d :
  contains k d = false -> setitem k v d = d ++ [(k, v)].
Proof.
  induction d as [|[k' v'] d IH]; simpl; [reflexivity|].
  destruct (key_eqb k k'); simpl; [discriminate|].
  intro H. now rewrite IH.
Qed.

Lemma setitem_same k v d : getitem k d = Some v -> setitem k v d = d.
Proof.
  induction d as [|[k' v'] d IH]; simpl; [discriminate|].
  destruct (key_eqb k k').
  - now intros [= ->].
  - intro H. now rewrite IH.
Qed.

Lemma getitem_setitem_eq k v d : getitem k (setitem k v d) = Some v.
Proof.
  induction d as [|[k' v'] d IH]; simpl.
  - now rewrite key_eqb_refl.
  - destruct (key_eqb k k') eqn:E; simpl; now rewrite E.
Qed.

Lemma getitem_setitem_ne k k' v d :
  k <> k' -> getitem k' (setitem k v d) = getitem k' d.
Proof.
  intro N. induction d as [|[k0 v0] d IH]; simpl.
  - assert (key_eqb k' k = false) as -> by (apply key_eqb_neq; congruence).
    reflexivity.
  - destruct (key_eqb k k0) eqn:E; simpl; [|now rewrite IH].
    apply key_eqb_eq in E. subst k0.
    assert (key_eqb k' k = false) as -> by (apply key_eqb_neq; congruence).
    reflexivity.
Qed.

Lemma keys_setitem k v d :
  keys (setitem k v d) = if contains k d then keys d else keys d ++ [k].
Proof.
  induction d as [|[k' v'] d IH]; simpl; [reflexivity|].
  destruct (key_eqb k k'); simpl; [reflexivity|].
  rewrite IH. now destruct (contains k d).
Qed.

Lemma In_setitem k v d kv :
  In kv (setitem k v d) -> kv = (k, v) \/ In kv d.
Proof.
  induction d as [|[k' v'] d IH]; simpl.
  - intuition.
  - destruct (key_eqb k k') eqn:E; simpl.
    + apply key_eqb_eq in E. subst. intuition.
    + intuition.
Qed.

Lemma In_values_setitem k v d : In v (values (setitem k v d)).
Proof.
  induction d as [|[k' v'] d IH]; simpl; [now left|].
  destruct (key_eqb k k'); simpl; auto.
Qed.

Lemma In_remove k d kv : In kv (remove k d) -> In kv d.
Proof.
  induction d as [|[k' v'] d IH]; simpl; [contradiction|].
  destruct (key_eqb k k'); simpl; intuition.
Qed.

Lemma In_remove_ne k d k' v :
  k <> k' -> In (k', v) d -> In (k', v) (remove k d).
Proof.
  intro N. induction d as [|[k0 v0] d IH]; simpl; [contradiction|].
  destruct (key_eqb k k0) eqn:E; simpl.
  - apply key_eqb_eq in E. subst. intros [[= <- <-] | H]; [congruence | exact H].
  - intuition.
Qed.

Lemma forallb_setitem (P : key * V -> bool) k v d :
  (forall k', P (k', v) = true) ->
  forallb P d = true -> forallb P (setitem k v d) = true.
Proof.
  intros Hv. induction d as [|[k' v'] d IH]; simpl.
  - intros _. now rewrite Hv.
  - intro H. apply andb_true_iff in H as [H1 H2].
    destruct (key_eqb k k'); simpl.
    + now rewrite Hv, H2.
    + now rewrite H1, IH.
Qed.

Lemma forallb_remove (P : key * V -> bool) k d :
  forallb P d = true -> forallb P (remove k d) = true.
Proof.
  induction d as [|[k' v'] d IH]; simpl; [reflexivity|].
  intro H. apply andb_true_iff in H as [H1 H2].
  destruct (key_eqb k k'); simpl; [exact H2|].
  now rewrite H1, IH.
Qed.

End Facts.
End DictFacts.
Import DictFacts.

(** ** Stock operations of a product *)

Ltac run_method :=
  unfold bind, get, put, lift, raise, ret, try_except; simpl.

Lemma sell_int (p : Product) (n q : Z) :
  _quantity_in_stock p = PInt n ->
  sell q p =
    if q >? n then (Raises (OutOfStockError (_name p)), p)
    else (Returns tt, set_quantity_in_stock (PInt (n - q)) p).
Proof.
  intro H. unfold sell. run_method. rewrite H. simpl.
  now destruct (q >? n).
Qed.

Lemma restock_int (p : Product) (n amount : Z) :
  _quantity_in_stock p = PInt n ->
  restock amount p =
    (Returns tt, set_quantity_in_stock (PInt (n + amount)) p).
Proof.
  intro H. unfold restock. run_method. now rewrite H.
Qed.

Lemma quantity_set_quantity (q : pyval) (p : Product) :
  _quantity_in_stock (set_quantity_in_stock q p) = q.
Proof. now destruct p. Qed.

Lemma product_id_set_quantity (q : pyval) (p : Product) :
  _product_id (set_quantity_in_stock q p) = _product_id p.
Proof. now destruct p. Qed.

(** A method run on a product of the inventory that is there. *)
Lemma on_product_some {A} (k : key) (m : M Product A) (s : Inventory)
      (p : Product) :
  Dict.getitem k s = Some p ->
  on_product k m s = (fst (m p), Dict.setitem k (snd (m p)) s).
Proof.
  intro H. unfold on_product. rewrite H. now destruct (m p).
Qed.

Lemma sell_product_found (s : Inventory) (product_id : pyval) (k : key)
      (p : Product) (q : Z) :
  py_hash product_id = Returns k ->
  Dict.getitem k s = Some p ->
  sell_product product_id q s
  = (fst (sell q p), Dict.setitem k (snd (sell q p)) s).
Proof.
  intros Hk Hp. unfold sell_product. run_method. rewrite Hk. simpl.
  assert (Dict.contains k s = true) as -> by (apply getitem_contains; eauto).
  simpl. now apply on_product_some.
Qed.

Lemma restock_product_found (s : Inventory) (product_id : pyval) (k : key)
      (p : Product) (a : Z) :
  py_hash product_id = Returns k ->
  Dict.getitem k s = Some p ->
  restock_product product_id a s
  = (fst (restock a p), Dict.setitem k (snd (restock a p)) s).
Proof.
  intros Hk Hp. unfold restock_product. run_method. rewrite Hk. simpl.
  assert (Dict.contains k s = true) as -> by (apply getitem_contains; eauto).
  simpl. now apply on_product_some.
Qed.

(** C1. Selling [q] of a product that the inventory holds, with [q] at most
    its stock, succeeds and takes exactly [q] from the stock of that product
    (selling the whole stock leaves zero); selling more than the stock
    raises [OutOfStockError] and leaves the inventory, and so the stock, as
    it was. *)
Theorem sell_product_within_stock
        (s : Inventory) (product_id : pyval) (k : key) (p : Product)
        (n q : Z) :
  py_hash product_id = Returns k ->
  Dict.getitem k s = Some p ->
  _quantity_in_stock p = PInt n ->
  (q <= n ->
     sell_product product_id q s
     = (Returns tt, Dict.setitem k (set_quantity_in_stock (PInt (n - q)) p) s)
     /\ (exists p', Dict.getitem k (snd (sell_product product_id q s))
                    = Some p'
                    /\ _quantity_in_stock p' = PInt (n - q)
                    /\ (q = n -> _quantity_in_stock p' = PInt 0)))
  /\ (q > n ->
        sell_product product_id q s
        = (Raises (OutOfStockError (_name p)), s)
        /\ Dict.getitem k (snd (sell_product product_id q s)) = Some p).
Proof.
  intros Hk Hp Hn.
  rewrite (sell_product_found s product_id k p q Hk Hp).
  rewrite (sell_int p n q Hn).
  split; intro Hq.
  - assert ((q >? n) = false) as -> by lia. simpl.
    split; [reflexivity|].
    eexists. split; [apply getitem_setitem_eq|].
    rewrite quantity_set_quantity. split; [reflexivity|].
    intros ->. now rewrite Z.sub_diag.
  - assert ((q >? n) = true) as -> by lia. simpl.
    rewrite (setitem_same _ _ _ Hp). now split.
Qed.

Lemma sell_product_within_stock_witness :
  sell_product (PStr "E001") 2 Samples.sample_inventory
  = (Returns tt,
     Dict.setitem (KStr "E001")
       (set_quantity_in_stock (PInt (10 - 2)) Samples.phone)
       Samples.sample_inventory)
  /\ sell_product (PStr "E001") 10 Samples.sample_inventory
     = (Returns tt,
        Dict.setitem (KStr "E001")
          (set_quantity_in_stock (PInt (10 - 10)) Samples.phone)
          Samples.sample_inventory).
Proof.
  split.
  - apply (sell_product_within_stock Samples.sample_inventory (PStr "E001")
             (KStr "E001") Samples.phone 10 2); [reflexivity .. | lia].
  - apply (sell_product_within_stock Samples.sample_inventory (PStr "E001")
             (KStr "E001") Samples.phone 10 10); [reflexivity .. | lia].
Defined.

(** C8. [restock(amount)] sets the stock to the stock plus [amount] and
    never raises, whatever the sign of [amount]: a negative amount lowers
    the stock, and one below minus the stock leaves it negative. *)
Theorem restock_unconditional (p : Product) (n amount : Z) :
  _quantity_in_stock p = PInt n ->
  restock amount p
  = (Returns tt, set_quantity_in_stock (PInt (n + amount)) p)
  /\ _quantity_in_stock (snd (restock amount p)) = PInt (n + amount)
  /\ (amount < 0 -> n + amount < n)
  /\ (amount < - n -> n + amount < 0).
Proof.
  intro H. rewrite (restock_int p n amount H). simpl.
  rewrite quantity_set_quantity. repeat split; lia.
Qed.

Lemma restock_unconditional_witness :
  _quantity_in_stock Samples.phone = PInt 10
  /\ restock (-11) Samples.phone
     = (Returns tt, set_quantity_in_stock (PInt (10 + -11)) Samples.phone).
Proof.
  split; [reflexivity|].
  apply (restock_unconditional Samples.phone 10 (-11)). reflexivity.
Defined.

(** C9, as the code has it. For a negative quantity [q] the only guard of
    [sell] is [q > stock]: when [q <= stock], and so whenever the stock is
    not negative, [sell(q)] does not raise and sets the stock to
    [stock - q], which is more than it was; when the stock is below [q],
    [sell(q)] raises [OutOfStockError] and changes nothing. *)
Theorem sell_negative_quantity (p : Product) (n q : Z) :
  _quantity_in_stock p = PInt n ->
  q < 0 ->
  (q <= n ->
     sell q p = (Returns tt, set_quantity_in_stock (PInt (n - q)) p)
     /\ n < n - q)
  /\ (0 <= n ->
        sell q p = (Returns tt, set_quantity_in_stock (PInt (n - q)) p))
  /\ (n < q -> sell q p = (Raises (OutOfStockError (_name p)), p)).
Proof.
  intros H Hq. rewrite (sell_int p n q H).
  repeat split; try intro Hn.
  - now assert ((q >? n) = false) as -> by lia.
  - lia.
  - now assert ((q >? n) = false) as -> by lia.
  - now assert ((q >? n) = true) as -> by lia.
Qed.

Lemma sell_negative_quantity_witness :
  (_quantity_in_stock Samples.phone = PInt 10 /\ -3 < 0)
  /\ sell (-3) Samples.phone
     = (Returns tt, set_quantity_in_stock (PInt (10 - -3)) Samples.phone).
Proof.
  split; [split; [reflexivity | lia]|].
  apply (sell_negative_quantity Samples.phone 10 (-3));
    [reflexivity | lia | lia].
Defined.

(** C9, as stated, fails: a product whose stock is -5 refuses to sell the
    negative quantity -1, because -1 > -5. *)
Lemma sell_negative_quantity_counterexample :
  _quantity_in_stock Samples.overdrawn = PInt (-5)
  /\ -1 < 0
  /\ sell (-1) Samples.overdrawn
     = (Raises (OutOfStockError (PStr "Radio")), Samples.overdrawn)
  /\ sell (-1) Samples.overdrawn
     <> (Returns tt,
         set_quantity_in_stock (PInt (-5 - -1)) Samples.overdrawn).
Proof.
  repeat split; try reflexivity; discriminate.
Qed.

(** ** The inventory: add, sell, restock *)

(** C3. [add_product] files a product whose id is no key of the inventory
    at the end of the dict, so that [list_all_products] contains it, and
    raises [DuplicateProductIDError] when the id is a key, leaving the
    inventory and the product stored under that id as they were. *)
Theorem add_product_inserts_or_rejects
        (s : Inventory) (product : Product) (k : key) :
  py_hash (_product_id product) = Returns k ->
  (Dict.contains k s = false ->
     add_product product s = (Returns tt, s ++ [(k, product)])
     /\ In product (list_all_products (snd (add_product product s)))
     /\ Dict.getitem k (snd (add_product product s)) = Some product)
  /\ (Dict.contains k s = true ->
        add_product product s
        = (Raises (DuplicateProductIDError "Product ID already exists."), s)
        /\ Dict.getitem k (snd (add_product product s)) = Dict.getitem k s).
Proof.
  intro Hk. unfold add_product. run_method. rewrite Hk. simpl.
  split; intros Hc; rewrite Hc; simpl.
  - split; [|split].
    + f_equal. now apply setitem_absent.
    + apply In_values_setitem.
    + apply getitem_setitem_eq.
  - now split.
Qed.

Lemma add_product_inserts_or_rejects_witness :
  add_product Samples.yogurt Samples.sample_inventory
  = (Returns tt, Samples.sample_inventory ++ [(KStr "G002", Samples.yogurt)])
  /\ add_product Samples.phone Samples.sample_inventory
     = (Raises (DuplicateProductIDError "Product ID already exists."),
        Samples.sample_inventory).
Proof.
  split.
  - apply (add_product_inserts_or_rejects Samples.sample_inventory
             Samples.yogurt (KStr "G002")); reflexivity.
  - apply (add_product_inserts_or_rejects Samples.sample_inventory
             Samples.phone (KStr "E001")); reflexivity.
Defined.

(** C4, as the code has it. [sell_product] and [restock_product] with an id
    that is no key of the inventory raise
    [InventoryError("Product not found.")] and leave the inventory
    unchanged.  [InventoryError] is the base class of the inventory's
    errors: a handler for it also catches [DuplicateProductIDError],
    [OutOfStockError] and [InvalidProductDataError]. *)
Theorem absent_product_raises_InventoryError
        (s : Inventory) (product_id : pyval) (k : key) (quantity : Z) :
  py_hash product_id = Returns k ->
  Dict.contains k s = false ->
  sell_product product_id quantity s
  = (Raises (InventoryError "Product not found."), s)
  /\ restock_product product_id quantity s
     = (Raises (InventoryError "Product not found."), s)
  /\ class_of (InventoryError "Product not found.") = CInventoryError
  /\ (forall e,
        In (class_of e) [CDuplicateProductIDError; COutOfStockError;
                         CInvalidProductDataError] ->
        isinstance e CInventoryError = true).
Proof.
  intros Hk Hc. unfold sell_product, restock_product. run_method.
  rewrite Hk. simpl. rewrite Hc. simpl.
  repeat split.
  intros e He. unfold isinstance.
  simpl in He. destruct He as [<- | [<- | [<- | []]]]; reflexivity.
Qed.

Lemma absent_product_raises_InventoryError_witness :
  sell_product (PStr "INVALID") 1 Samples.sample_inventory
  = (Raises (InventoryError "Product not found."), Samples.sample_inventory)
  /\ restock_product (PStr "INVALID") 1 Samples.sample_inventory
     = (Raises (InventoryError "Product not found."),
        Samples.sample_inventory).
Proof.
  split;
  apply (absent_product_raises_InventoryError Samples.sample_inventory
           (PStr "INVALID") (KStr "INVALID") 1); reflexivity.
Defined.

(** The three subclasses are kinds of their own. *)
Lemma subclasses_are_distinct_kinds (e : exn) :
  In (class_of e) [CDuplicateProductIDError; COutOfStockError;
                   CInvalidProductDataError] ->
  distinct_kind e.
Proof.
  intros H e' N. unfold isinstance.
  simpl in H. destruct H as [H | [H | [H | []]]]; rewrite <- H in *;
    destruct (class_of e'); try reflexivity; congruence.
Qed.

(** C4, as stated, fails: the error that selling an absent id raises is no
    kind of its own.  A handler for its class catches the
    [OutOfStockError] that selling too much of a present product raises. *)
Lemma absent_product_error_counterexample :
  exists e e',
    fst (sell_product (PStr "INVALID") 1 Samples.sample_inventory) = Raises e
    /\ fst (sell_product (PStr "E001") 100 Samples.sample_inventory)
       = Raises e'
    /\ class_of e' <> class_of e
    /\ isinstance e' (class_of e) = true
    /\ ~ distinct_kind e.
Proof.
  exists (InventoryError "Product not found."),
         (OutOfStockError (PStr "Phone")).
  repeat split; try discriminate.
  intro D. specialize (D (OutOfStockError (PStr "Phone"))).
  discriminate D. discriminate.
Qed.

(** ** The stock invariant *)

Lemma stock_invariant_setitem (k : key) (p : Product) (s : Inventory) :
  nonneg_stock p = true ->
  stock_invariant s = true ->
  stock_invariant (Dict.setitem k p s) = true.
Proof.
  intros Hp Hs. unfold stock_invariant. now apply forallb_setitem.
Qed.

Lemma stock_invariant_getitem (k : key) (p : Product) (s : Inventory) :
  stock_invariant s = true ->
  Dict.getitem k s = Some p ->
  nonneg_stock p = true.
Proof.
  intros Hs Hp. unfold stock_invariant in Hs.
  rewrite forallb_forall in Hs.
  apply (Hs (k, p)). now apply getitem_In.
Qed.

(** What [sell] leaves of a product with a non-negative stock has a
    non-negative stock, whatever the quantity. *)
Lemma sell_keeps_nonneg (p : Product) (q : Z) :
  nonneg_stock p = true -> nonneg_stock (snd (sell q p)) = true.
Proof.
  unfold nonneg_stock. intro H.
  destruct (_quantity_in_stock p) as [| | n | | | |] eqn:E; try discriminate.
  rewrite (sell_int p n q E).
  destruct (q >? n) eqn:G; simpl.
  - now rewrite E.
  - rewrite quantity_set_quantity. lia.
Qed.

Lemma restock_keeps_nonneg (p : Product) (a : Z) :
  0 <= a -> nonneg_stock p = true -> nonneg_stock (snd (restock a p)) = true.
Proof.
  unfold nonneg_stock. intros Ha H.
  destruct (_quantity_in_stock p) as [| | n | | | |] eqn:E; try discriminate.
  rewrite (restock_int p n a E). simpl.
  rewrite quantity_set_quantity. lia.
Qed.

Lemma on_product_invariant {A} (k : key) (m : M Product A) (s : Inventory) :
  (forall p, nonneg_stock p = true -> nonneg_stock (snd (m p)) = true) ->
  stock_invariant s = true ->
  stock_invariant (snd (on_product k m s)) = true.
Proof.
  intros Hm Hs. unfold on_product.
  destruct (Dict.getitem k s) as [p|] eqn:E; [|exact Hs].
  specialize (Hm p (stock_invariant_getitem k p s Hs E)).
  destruct (m p) as [r p']. simpl in *.
  now apply stock_invariant_setitem.
Qed.

Lemma for_each_delitem_invariant (ids : list key) (s : Inventory) :
  stock_invariant s = true ->
  stock_invariant (snd (for_each ids Dict.delitem s)) = true.
Proof.
  revert s. induction ids as [|k ids IH]; intros s Hs; simpl; [exact Hs|].
  unfold bind, Dict.delitem.
  destruct (Dict.contains k s); simpl; [|exact Hs].
  apply IH. unfold stock_invariant. now apply forallb_remove.
Qed.

(** C5, as the code has it. In an inventory whose products all have a
    non-negative integer stock, the stock of every product is still
    non-negative after [add_product] of a product with a non-negative
    stock, after [remove_product], after [sell_product] of any quantity,
    after [restock_product] of a non-negative amount, and after
    [remove_expired_products]. *)
Theorem stock_invariant_preserved (s : Inventory) :
  stock_invariant s = true ->
  (forall product,
      nonneg_stock product = true ->
      stock_invariant (snd (add_product product s)) = true)
  /\ (forall product_id,
        stock_invariant (snd (remove_product product_id s)) = true)
  /\ (forall product_id quantity,
        stock_invariant (snd (sell_product product_id quantity s)) = true)
  /\ (forall product_id amount,
        0 <= amount ->
        stock_invariant (snd (restock_product product_id amount s)) = true)
  /\ (forall strptime clock,
        stock_invariant (snd (remove_expired_products strptime clock s))
        = true).
Proof.
  intro Hs. repeat split.
  - intros product Hp. unfold add_product. run_method.
    destruct (py_hash (_product_id product)) as [k|e]; simpl; [|exact Hs].
    destruct (Dict.contains k s); simpl; [exact Hs|].
    now apply stock_invariant_setitem.
  - intros product_id. unfold remove_product. run_method.
    destruct s as [|kp s']; [reflexivity|].
    destruct (py_hash product_id) as [k|e]; [|exact Hs].
    exact (forallb_remove _ k (kp :: s') Hs).
  - intros product_id quantity. unfold sell_product. run_method.
    destruct (py_hash product_id) as [k|e]; simpl; [|exact Hs].
    destruct (Dict.contains k s); simpl; [|exact Hs].
    apply on_product_invariant; [|exact Hs].
    intros p. apply sell_keeps_nonneg.
  - intros product_id amount Ha. unfold restock_product. run_method.
    destruct (py_hash product_id) as [k|e]; simpl; [|exact Hs].
    destruct (Dict.contains k s); simpl; [|exact Hs].
    apply on_product_invariant; [|exact Hs].
    intros p. now apply restock_keeps_nonneg.
  - intros strptime clock. unfold remove_expired_products. run_method.
    unfold Dict.items.
    destruct (expired_ids strptime clock 0 s) as [ids|e]; simpl; [|exact Hs].
    now apply for_each_delitem_invariant.
Qed.

Lemma stock_invariant_preserved_witness :
  stock_invariant Samples.sample_inventory = true
  /\ stock_invariant
       (snd (sell_product (PStr "E001") 10 Samples.sample_inventory)) = true
  /\ stock_invariant
       (snd (restock_product (PStr "E001") 0 Samples.sample_inventory))
     = true.
Proof.
  split; [reflexivity|]. split.
  - apply (stock_invariant_preserved Samples.sample_inventory). reflexivity.
  - apply (stock_invariant_preserved Samples.sample_inventory);
      [reflexivity | lia].
Defined.

(** C5, as stated, fails: restocking the phone (stock 10) with -11 leaves
    its stock at -1, with no error. *)
Lemma stock_invariant_counterexample :
  stock_invariant Samples.sample_inventory = true
  /\ fst (restock_product (PStr "E001") (-11) Samples.sample_inventory)
     = Returns tt
  /\ Dict.getitem (KStr "E001")
       (snd (restock_product (PStr "E001") (-11) Samples.sample_inventory))
     = Some (set_quantity_in_stock (PInt (-1)) Samples.phone)
  /\ stock_invariant
       (snd (restock_product (PStr "E001") (-11) Samples.sample_inventory))
     = false.
Proof. repeat split. Qed.

(** ** Expiry *)

Lemma date_ltb_irrefl (d : date) : date_ltb d d = false.
Proof.
  unfold date_ltb. rewrite !Z.ltb_irrefl, !Z.eqb_refl. reflexivity.
Qed.

Lemma for_each_delitem_others (ids : list key) (k0 : key) (p0 : Product)
      (s : Inventory) :
  ~ In k0 ids ->
  for_each ids Dict.delitem ((k0, p0) :: s)
  = (fst (for_each ids Dict.delitem s),
     (k0, p0) :: snd (for_each ids Dict.delitem s)).
Proof.
  revert s. induction ids as [|k ids IH]; intros s Hk; simpl; [reflexivity|].
  assert (key_eqb k k0 = false) as E.
  { apply key_eqb_neq. intros ->. apply Hk. now left. }
  unfold bind, Dict.delitem. rewrite contains_cons_ne by exact E.
  destruct (Dict.contains k s); simpl.
  - rewrite E. apply IH. intro H. apply Hk. now right.
  - reflexivity.
Qed.

(** Deleting the keys of the entries that [P] selects, front to back,
    leaves the entries that [P] does not select. *)
Lemma for_each_delitem_filter (P : key * Product -> bool) (s : Inventory) :
  NoDup (Dict.keys s) ->
  for_each (map fst (filter P s)) Dict.delitem s
  = (Returns tt, filter (fun kp => negb (P kp)) s).
Proof.
  induction s as [|[k p] s IH]; intro ND; [reflexivity|].
  inversion ND as [|? ? Hk ND']; subst.
  cbn [filter]. destruct (P (k, p)); cbn [negb map fst for_each].
  - unfold bind, Dict.delitem at 1. simpl.
    rewrite key_eqb_refl. simpl. now apply IH.
  - rewrite for_each_delitem_others.
    + now rewrite IH.
    + intro H. apply Hk. apply in_map_iff in H as [[k' p'] [E H]].
      simpl in E. subst k'. apply filter_In in H as [H _].
      change k with (fst (k, p')). now apply in_map.
Qed.

(** Deleting touches only the entries whose key is asked for. *)
Lemma for_each_delitem_keeps (ids : list key) (s : Inventory) (k : key)
      (p : Product) :
  ~ In k ids -> In (k, p) s -> In (k, p) (snd (for_each ids Dict.delitem s)).
Proof.
  revert s. induction ids as [|k' ids IH]; intros s Hk Hin; [exact Hin|].
  simpl. unfold bind, Dict.delitem.
  destruct (Dict.contains k' s); simpl; [|exact Hin].
  apply IH.
  - intro H. apply Hk. now right.
  - apply In_remove_ne; [|exact Hin]. intros ->. apply Hk. now left.
Qed.

Lemma for_each_delitem_sub (ids : list key) (s : Inventory)
      (kp : key * Product) :
  In kp (snd (for_each ids Dict.delitem s)) -> In kp s.
Proof.
  revert s. induction ids as [|k' ids IH]; intros s; [trivial|].
  simpl. unfold bind, Dict.delitem.
  destruct (Dict.contains k' s); simpl; [|trivial].
  intro H. apply IH in H. now apply In_remove in H.
Qed.

Section ExpiryFacts.
Variable strptime : string -> outcome date.
Variable clock : nat -> date.

(** Every id that the comprehension collects is the key of a Grocery that
    one reading of the clock found expired. *)
Lemma expired_ids_sound (items : list (key * Product)) :
  forall n ids,
    expired_ids strptime clock n items = Returns ids ->
    forall k, In k ids ->
      exists p m, In (k, p) items
                  /\ isinstance_Grocery p = true
                  /\ is_expired strptime (clock m) p = Returns true.
Proof.
  induction items as [|[k0 p0] items IH]; intros n ids H k Hk; simpl in H.
  - injection H as <-. contradiction.
  - destruct (isinstance_Grocery p0) eqn:G.
    + destruct (is_expired strptime (clock n) p0) as [b|e] eqn:E;
        simpl in H; [|discriminate].
      destruct (expired_ids strptime clock (S n) items) as [rest|e] eqn:R;
        simpl in H; [|discriminate].
      injection H as <-.
      destruct b.
      * destruct Hk as [<- | Hk].
        -- exists p0, n. repeat split; auto. now left.
        -- destruct (IH _ _ R k Hk) as (p & m & Hin & Hg & He).
           exists p, m. repeat split; auto. now right.
      * destruct (IH _ _ R k Hk) as (p & m & Hin & Hg & He).
        exists p, m. repeat split; auto. now right.
    + destruct (IH _ _ H k Hk) as (p & m & Hin & Hg & He).
      exists p, m. repeat split; auto. now right.
Qed.

(** With one date on the clock and dates that can be read, the
    comprehension collects the keys of the Groceries expired on that
    date. *)
Lemma expired_ids_one_day (today : date) (items : list (key * Product)) :
  (forall n, clock n = today) ->
  (forall k p, In (k, p) items -> isinstance_Grocery p = true ->
               readable strptime p) ->
  forall n,
    expired_ids strptime clock n items
    = Returns (map fst (filter (fun kp => expired_on strptime today (snd kp))
                               items)).
Proof.
  intros Hc. induction items as [|[k0 p0] items IH]; intros Hr n;
    [reflexivity|].
  assert (forall k p, In (k, p) items -> isinstance_Grocery p = true ->
                      readable strptime p) as Hr'.
  { intros k p H. apply (Hr k p). now right. }
  cbn [expired_ids filter snd]. unfold expired_on at 1.
  destruct (isinstance_Grocery p0) eqn:G; cbn [andb].
  - destruct (Hr k0 p0 (or_introl eq_refl) G today) as [b Hb].
    rewrite Hc, Hb. cbn [obind]. rewrite (IH Hr'). cbn [obind].
    now destruct b.
  - apply (IH Hr').
Qed.

End ExpiryFacts.

Lemma key_eq_dec (a b : key) : {a = b} + {a <> b}.
Proof.
  destruct (key_eqb a b) eqn:E.
  - left. now apply key_eqb_eq.
  - right. now apply key_eqb_neq.
Qed.

(** The ids that the comprehension collects are the keys of the entries
    that are Groceries found expired, each at the reading whose number is
    the number of readings taken before the call came to it. *)
Lemma expired_ids_readings (strptime : string -> outcome date)
      (clock : nat -> date) (items : list (key * Product)) :
  NoDup (map fst items) ->
  forall n ids,
    expired_ids strptime clock n items = Returns ids ->
    ids = map fst
            (filter (fun kp =>
                       isinstance_Grocery (snd kp)
                       && match is_expired strptime
                                  (clock (n + groceries_before (fst kp)
                                                items)%nat)
                                  (snd kp) with
                          | Returns b => b
                          | Raises _ => false
                          end)
                    items).
Proof.
  induction items as [|[k0 p0] items IH]; intros ND n ids H.
  - simpl in H. now injection H as <-.
  - inversion ND as [|? ? Hk ND']; subst.
    assert (forall m : nat,
              (n + (if isinstance_Grocery p0 then 1 else 0) = m)%nat ->
              filter (fun kp =>
                        isinstance_Grocery (snd kp)
                        && match is_expired strptime
                                   (clock (n + groceries_before (fst kp)
                                                 ((k0, p0) :: items))%nat)
                                   (snd kp) with
                           | Returns b => b
                           | Raises _ => false
                           end) items
              = filter (fun kp =>
                          isinstance_Grocery (snd kp)
                          && match is_expired strptime
                                     (clock (m + groceries_before (fst kp)
                                                   items)%nat)
                                     (snd kp) with
                             | Returns b => b
                             | Raises _ => false
                             end) items) as Tail.
    { intros m Hm. apply filter_ext_in. intros [k p] Hin.
      cbn [fst snd groceries_before].
      assert (key_eqb k k0 = false) as ->.
      { apply key_eqb_neq. intros ->. apply Hk.
        change k0 with (fst (k0, p)). now apply in_map. }
      now rewrite <- Hm, Nat.add_assoc. }
    cbn [expired_ids] in H. cbn [filter].
    destruct (isinstance_Grocery p0) eqn:G.
    + rewrite (Tail (S n)) by apply Nat.add_1_r.
      cbn [fst snd groceries_before].
      rewrite key_eqb_refl, Nat.add_0_r, G. cbn [andb].
      destruct (is_expired strptime (clock n) p0) as [b|e]; simpl in H;
        [|discriminate].
      destruct (expired_ids strptime clock (S n) items) as [rest|e] eqn:R;
        simpl in H; [|discriminate].
      injection H as <-.
      rewrite (IH ND' (S n) rest R). now destruct b.
    + rewrite (Tail n) by apply Nat.add_0_r.
      cbn [fst snd groceries_before].
      rewrite key_eqb_refl, Nat.add_0_r, G. cbn [andb].
      now apply IH.
Qed.

(** A call that returns leaves exactly the entries that are no Grocery
    found expired at its own reading. *)
Lemma remove_expired_products_returns (strptime : string -> outcome date)
      (clock : nat -> date) (s : Inventory) :
  NoDup (Dict.keys s) ->
  fst (remove_expired_products strptime clock s) = Returns tt ->
  remove_expired_products strptime clock s
  = (Returns tt,
     filter (fun kp => negb (found_expired strptime clock s kp)) s).
Proof.
  intros ND. unfold remove_expired_products. run_method. unfold Dict.items.
  destruct (expired_ids strptime clock 0 s) as [ids|e] eqn:E; simpl;
    [|discriminate].
  intros _. rewrite (expired_ids_readings strptime clock s ND 0 ids E).
  now apply for_each_delitem_filter.
Qed.

(** C6, as the code has it. [remove_expired_products] never removes an
    Electronics or a Clothing product, and what it removes is a Grocery
    that [is_expired] found expired at the clock reading taken for it: the
    clock is read once for every Grocery, not once for the call, so that a
    Grocery meets the reading whose number is the number of Groceries that
    stand before it in the inventory.  A call that returns removes exactly
    the Groceries found expired at their own reading; a call that raises
    removes nothing.  When all readings of the call are one date and the
    expiry dates can be read, it removes exactly the Groceries whose expiry
    date is strictly before that date; a Grocery that expires on that date
    stays. *)
Theorem remove_expired_products_spec
        (strptime : string -> outcome date) (clock : nat -> date)
        (s : Inventory) :
  NoDup (Dict.keys s) ->
  (forall k p, In (k, p) s -> isinstance_Grocery p = false ->
     In (k, p) (snd (remove_expired_products strptime clock s)))
  /\ (forall k p, In (k, p) s ->
        ~ In (k, p) (snd (remove_expired_products strptime clock s)) ->
        isinstance_Grocery p = true
        /\ is_expired strptime (clock (groceries_before k s)) p
           = Returns true)
  /\ (fst (remove_expired_products strptime clock s) = Returns tt ->
      remove_expired_products strptime clock s
      = (Returns tt,
         filter (fun kp => negb (found_expired strptime clock s kp)) s))
  /\ (forall e,
        fst (remove_expired_products strptime clock s) = Raises e ->
        snd (remove_expired_products strptime clock s) = s)
  /\ (forall today,
        (forall n, clock n = today) ->
        (forall k p, In (k, p) s -> isinstance_Grocery p = true ->
                     readable strptime p) ->
        remove_expired_products strptime clock s
        = (Returns tt, without_expired strptime today s))
  /\ (forall today i n pr q e d,
        strptime e = Returns d ->
        expired_on strptime today (Grocery i n pr q (PStr e))
        = date_ltb d today)
  /\ (forall d, date_ltb d d = false).
Proof.
  intro ND.
  assert (forall e,
            fst (remove_expired_products strptime clock s) = Raises e ->
            snd (remove_expired_products strptime clock s) = s) as Raised.
  { intro e. unfold remove_expired_products. run_method. unfold Dict.items.
    destruct (expired_ids strptime clock 0 s) as [ids|e0] eqn:E; simpl;
      [|reflexivity].
    rewrite (expired_ids_readings strptime clock s ND 0 ids E).
    rewrite for_each_delitem_filter by exact ND. discriminate. }
  assert (forall k p, In (k, p) s ->
            ~ In (k, p) (snd (remove_expired_products strptime clock s)) ->
            isinstance_Grocery p = true
            /\ is_expired strptime (clock (groceries_before k s)) p
               = Returns true)
    as Removed.
  { intros k p Hin Hout.
    destruct (fst (remove_expired_products strptime clock s)) as [[]|e]
      eqn:F.
    - rewrite (remove_expired_products_returns strptime clock s ND F)
        in Hout. simpl in Hout.
      destruct (found_expired strptime clock s (k, p)) eqn:Fe.
      + unfold found_expired in Fe. cbn [fst snd] in Fe.
        apply andb_true_iff in Fe as [G Fe]. split; [exact G|].
        destruct (is_expired strptime (clock (groceries_before k s)) p)
          as [b|e]; [now subst | discriminate].
      + exfalso. apply Hout. apply filter_In. split; [exact Hin|].
        now rewrite Fe.
    - exfalso. apply Hout. now rewrite (Raised e eq_refl). }
  split; [|split; [exact Removed|split; [|split; [exact Raised|split;
    [|split]]]]].
  - intros k p Hin G.
    unfold remove_expired_products. run_method. unfold Dict.items.
    destruct (expired_ids strptime clock 0 s) as [ids|e] eqn:E; simpl;
      [|exact Hin].
    apply for_each_delitem_keeps; [|exact Hin].
    intro Hk.
    destruct (expired_ids_sound strptime clock s 0 ids E k Hk)
      as (p' & m & Hin' & Hg & He).
    apply (In_getitem _ _ _ ND) in Hin, Hin'. congruence.
  - now apply remove_expired_products_returns.
  - intros today Hc Hr.
    unfold remove_expired_products. run_method. unfold Dict.items.
    rewrite (expired_ids_one_day strptime clock today s Hc Hr 0). simpl.
    now apply for_each_delitem_filter.
  - intros today i n pr q e d Hd. unfold expired_on. simpl.
    now rewrite Hd.
  - apply date_ltb_irrefl.
Qed.

Lemma sample_inventory_keys : NoDup (Dict.keys Samples.sample_inventory).
Proof. repeat constructor; simpl; intuition discriminate. Qed.

Lemma dairy_keys : NoDup (Dict.keys Samples.dairy).
Proof. repeat constructor; simpl; intuition discriminate. Qed.

Lemma remove_expired_products_spec_witness :
  remove_expired_products Strptime.strptime
    (Samples.on_day (Date 2024 5 11)) Samples.sample_inventory
  = (Returns tt,
     without_expired Strptime.strptime (Date 2024 5 11)
       Samples.sample_inventory)
  /\ remove_expired_products Strptime.strptime
       (Samples.on_day (Date 2024 5 10)) Samples.sample_inventory
     = (Returns tt, Samples.sample_inventory)
  /\ remove_expired_products Strptime.strptime Samples.midnight Samples.dairy
     = (Returns tt,
        filter (fun kp => negb (found_expired Strptime.strptime
                                  Samples.midnight Samples.dairy kp))
               Samples.dairy)
  /\ (isinstance_Grocery Samples.yogurt = true
      /\ is_expired Strptime.strptime
           (Samples.midnight (groceries_before (KStr "G002") Samples.dairy))
           Samples.yogurt
         = Returns true).
Proof.
  assert (forall k p, In (k, p) Samples.sample_inventory ->
            isinstance_Grocery p = true ->
            readable Strptime.strptime p) as R.
  { intros k p [E | [E | [E | []]]] G; injection E as <- <-;
      try discriminate G.
    intro today. eexists. reflexivity. }
  split; [|split; [|split]].
  - exact (proj1 (proj2 (proj2 (proj2 (proj2
             (remove_expired_products_spec Strptime.strptime
                (Samples.on_day (Date 2024 5 11)) Samples.sample_inventory
                sample_inventory_keys)))))
             (Date 2024 5 11) (fun _ => eq_refl) R).
  - exact (proj1 (proj2 (proj2 (proj2 (proj2
             (remove_expired_products_spec Strptime.strptime
                (Samples.on_day (Date 2024 5 10)) Samples.sample_inventory
                sample_inventory_keys)))))
             (Date 2024 5 10) (fun _ => eq_refl) R).
  - exact (proj1 (proj2 (proj2
             (remove_expired_products_spec Strptime.strptime
                Samples.midnight Samples.dairy dairy_keys)))
             eq_refl).
  - apply (proj1 (proj2
             (remove_expired_products_spec Strptime.strptime
                Samples.midnight Samples.dairy dairy_keys))
             (KStr "G002") Samples.yogurt).
    + right. now left.
    + intros [H | [H | []]]; discriminate H.
Defined.

(** C6, as stated, fails: there is no single current date for the call.
    Milk and yogurt both expire on 2024-05-10; in a call that runs over
    midnight the milk is examined on 2024-05-10 and stays, the yogurt on
    2024-05-11 and goes.  On no one date would exactly the yogurt be
    expired. *)
Lemma single_current_date_counterexample :
  remove_expired_products Strptime.strptime Samples.midnight Samples.dairy
  = (Returns tt, [(KStr "G001", Samples.milk); (KStr "E001", Samples.phone)])
  /\ ~ exists today,
         snd (remove_expired_products Strptime.strptime Samples.midnight
                Samples.dairy)
         = without_expired Strptime.strptime today Samples.dairy.
Proof.
  split; [reflexivity|].
  intros [today H].
  assert (expired_on Strptime.strptime today Samples.milk
          = date_ltb (Date 2024 5 10) today) as Em by reflexivity.
  assert (expired_on Strptime.strptime today Samples.yogurt
          = date_ltb (Date 2024 5 10) today) as Ey by reflexivity.
  assert (expired_on Strptime.strptime today Samples.phone = false)
    as Ep by reflexivity.
  change (snd (remove_expired_products Strptime.strptime Samples.midnight
                 Samples.dairy))
    with [(KStr "G001", Samples.milk); (KStr "E001", Samples.phone)] in H.
  unfold without_expired, Samples.dairy in H. cbn [filter snd] in H.
  rewrite Em, Ey, Ep in H.
  destruct (date_ltb (Date 2024 5 10) today); discriminate H.
Qed.

(** ** Loading and saving *)

Lemma load_item_reconstruct (item : pyval) (s : Inventory) :
  load_item item s
  = match reconstruct item with
    | Returns (k, p) => (Returns tt, Dict.setitem k p s)
    | Raises e => (Raises e, s)
    end.
Proof.
  unfold load_item, reconstruct. run_method.
  destruct (pop "type" item) as [[cls_name item']|e]; simpl; [|reflexivity].
  destruct (_create_product_from_dict cls_name item') as [p|e]; simpl;
    [|reflexivity].
  now destruct (py_hash (_product_id p)).
Qed.

Lemma for_each_app {S A} (xs ys : list A) (body : A -> M S unit) (s : S) :
  for_each (xs ++ ys) body s
  = match for_each xs body s with
    | (Returns _, s1) => for_each ys body s1
    | (Raises e, s1) => (Raises e, s1)
    end.
Proof.
  revert s. induction xs as [|x xs IH]; intro s; simpl; [reflexivity|].
  unfold bind. destruct (body x s) as [[[]|e] s1]; [apply IH | reflexivity].
Qed.

(** [load_from_file] on a document that is a list. *)
Lemma load_from_file_list (items : list pyval) (s : Inventory) :
  load_from_file (Returns (PList items)) s
  = match for_each items load_item s with
    | (Returns a, s') => (Returns a, s')
    | (Raises e, s') =>
        (Raises (InvalidProductDataError (ErrorLoadingData e)), s')
    end.
Proof. reflexivity. Qed.

Lemma load_succeeds_inv (items : list pyval) (s s1 : Inventory) :
  load_from_file (Returns (PList items)) s = (Returns tt, s1) ->
  for_each items load_item s = (Returns tt, s1).
Proof.
  rewrite load_from_file_list.
  destruct (for_each items load_item s) as [[[]|e] s']; congruence.
Qed.

(** A record on which a round of the loop raises makes the load fail,
    wherever it stands in the file. *)
Lemma load_fails_at (pre post : list pyval) (bad : pyval) (s : Inventory)
      (e : exn) :
  reconstruct bad = Raises e ->
  exists cause s',
    load_from_file (Returns (PList (pre ++ bad :: post))) s
    = (Raises (InvalidProductDataError (ErrorLoadingData cause)), s').
Proof.
  intro H. rewrite load_from_file_list, for_each_app.
  destruct (for_each pre load_item s) as [[[]|e'] s1]; [|eauto].
  simpl. unfold bind. rewrite load_item_reconstruct, H. eauto.
Qed.

(** *** Keyword binding *)

Lemma lookup_discard_ne (k f : string) (d : record) :
  f <> k -> lookup f (discard k d) = lookup f d.
Proof.
  intro N. induction d as [|[k' v] d IH]; simpl; [reflexivity|].
  destruct (String.eqb k k') eqn:E; simpl.
  - apply String.eqb_eq in E. subst k'.
    assert (String.eqb f k = false) as -> by now apply String.eqb_neq.
    reflexivity.
  - now rewrite IH.
Qed.

Lemma first_bad_keyword_extra (params : list string) (data : record)
      (f : string) (v : pyval) :
  In (f, v) data -> ~ In f params ->
  exists why, first_bad_keyword params data = Some why.
Proof.
  intros Hin Hf. induction data as [|[k v'] data IH]; simpl;
    [contradiction|].
  destruct (String.eqb k "self"); [eauto|].
  destruct (mem k params) eqn:E; [|eauto].
  destruct Hin as [[= -> ->] | Hin]; [|auto].
  exfalso. apply Hf. unfold mem in E.
  apply existsb_exists in E as [x [Hx E]].
  apply String.eqb_eq in E. now subst.
Qed.

Lemma bind_keywords_missing (params : list string) (data : record)
      (f : string) :
  In f params -> lookup f data = None ->
  exists e, bind_keywords params data = Raises e.
Proof.
  intros Hin Hf. unfold bind_keywords.
  destruct (first_bad_keyword params data); [eauto|].
  assert (In f (missing params data)) as Hm.
  { unfold missing. apply filter_In. split; [exact Hin|]. now rewrite Hf. }
  destruct (missing params data); [contradiction | eauto].
Qed.

Lemma bind_keywords_extra (params : list string) (data : record)
      (f : string) (v : pyval) :
  In (f, v) data -> ~ In f params ->
  exists e, bind_keywords params data = Raises e.
Proof.
  intros Hin Hf. unfold bind_keywords.
  destruct (first_bad_keyword_extra params data f v Hin Hf) as [why ->].
  eauto.
Qed.

Lemma bind_keywords_bound (params : list string) (data : record)
      (arg : string -> pyval) (f : string) :
  bind_keywords params data = Returns arg ->
  In f params -> lookup f data = Some (arg f).
Proof.
  unfold bind_keywords.
  destruct (first_bad_keyword params data); [discriminate|].
  destruct (missing params data) eqn:Em; [|discriminate].
  intros [= <-] Hin.
  destruct (lookup f data) eqn:E; [reflexivity|].
  exfalso. assert (In f (missing params data)) as Hm.
  { unfold missing. apply filter_In. split; [exact Hin|]. now rewrite E. }
  rewrite Em in Hm. contradiction.
Qed.

(** With a known discriminator the constructor is called with the field
    list of its class. *)
Lemma create_known_raises (t : pyval) (data : record) :
  known_tag t = true ->
  (exists e, bind_keywords (fields_of t) data = Raises e) ->
  exists e, _create_product_from_dict t data = Raises e.
Proof.
  unfold known_tag, fields_of, _create_product_from_dict,
    Electronics_of, Grocery_of, Clothing_of.
  intros Hk [e He].
  destruct (eq_str t "Electronics"); [rewrite He; simpl; eauto|].
  destruct (eq_str t "Grocery"); [rewrite He; simpl; eauto|].
  destruct (eq_str t "Clothing"); [rewrite He; simpl; eauto|].
  discriminate.
Qed.

Lemma create_unknown (t : pyval) (data : record) :
  known_tag t = false ->
  _create_product_from_dict t data
  = Raises (InvalidProductDataError (UnknownProductType t)).
Proof.
  unfold known_tag, _create_product_from_dict. intro H.
  apply orb_false_iff in H as [H H3]. apply orb_false_iff in H as [H1 H2].
  now rewrite H1, H2, H3.
Qed.

Lemma type_not_field (t : pyval) (f : string) :
  In f (fields_of t) -> f <> "type".
Proof.
  unfold fields_of. intros H ->.
  destruct (eq_str t "Electronics");
    [|destruct (eq_str t "Grocery"); [|destruct (eq_str t "Clothing")]];
    simpl in H; intuition discriminate.
Qed.

Lemma bad_record_raises (d : record) :
  no_tag d \/ unknown_tag d \/ missing_field d \/ extra_field d ->
  exists e, reconstruct (PDict d) = Raises e.
Proof.
  unfold reconstruct, pop.
  intros [Ht | [(t & Ht & Hk) | [(t & f & Ht & Hk & Hf & Hm)
                                | (t & f & v & Ht & Hk & Hin & Hf)]]];
    rewrite Ht; simpl.
  - eauto.
  - rewrite (create_unknown t _ Hk). simpl. eauto.
  - destruct (create_known_raises t (discard "type" d) Hk) as [e ->].
    + apply (bind_keywords_missing _ _ f Hf).
      rewrite lookup_discard_ne; [exact Hm|].
      now apply (type_not_field t).
    + simpl. eauto.
  - destruct (create_known_raises t (discard "type" d) Hk) as [e ->].
    + now apply (bind_keywords_extra _ _ f v).
    + simpl. eauto.
Qed.

(** C7. A failure of [open] or [json.load] makes [load_from_file] raise
    [InvalidProductDataError] with the message built from that failure, and
    so does every other failure of the call; a file with a record whose
    discriminator is missing or none of the three classes, or that lacks a
    field of its class, or has a field that its class does not have, makes
    the call fail so, wherever the record stands.  When the records before it load,
    the record with the unknown discriminator [t] is reported as
    "Error loading data: Unknown product type: t". *)
Theorem load_from_file_failures (s : Inventory) :
  (forall e,
      load_from_file (Raises e) s
      = (Raises (InvalidProductDataError (ErrorLoadingData e)), s))
  /\ (forall file e s',
        load_from_file file s = (Raises e, s') ->
        exists cause, e = InvalidProductDataError (ErrorLoadingData cause))
  /\ (forall pre d post,
        no_tag d \/ unknown_tag d \/ missing_field d \/ extra_field d ->
        exists cause s',
          load_from_file (Returns (PList (pre ++ PDict d :: post))) s
          = (Raises (InvalidProductDataError (ErrorLoadingData cause)), s'))
  /\ (forall pre d post t s1,
        load_from_file (Returns (PList pre)) s = (Returns tt, s1) ->
        lookup "type" d = Some t ->
        known_tag t = false ->
        load_from_file (Returns (PList (pre ++ PDict d :: post))) s
        = (Raises (InvalidProductDataError
                     (ErrorLoadingData
                        (InvalidProductDataError (UnknownProductType t)))),
           s1)).
Proof.
  split; [reflexivity|]. split; [|split].
  - intros file e s'. unfold load_from_file, try_except.
    match goal with |- context [match ?body s with _ => _ end] =>
      destruct (body s) as [[a|e0] s0] end; [discriminate|].
    intros [= <- <-]. eauto.
  - intros pre d post Hbad.
    destruct (bad_record_raises d Hbad) as [e He].
    now apply (load_fails_at pre post (PDict d) s e).
  - intros pre d post t s1 Hpre Ht Hk.
    apply load_succeeds_inv in Hpre.
    rewrite load_from_file_list, for_each_app, Hpre. simpl. unfold bind.
    rewrite load_item_reconstruct. unfold reconstruct, pop.
    rewrite Ht. simpl. rewrite (create_unknown t _ Hk). reflexivity.
Qed.

Lemma load_from_file_failures_witness :
  unknown_tag [("type", PStr "Toy"); ("product_id", PStr "T001")]
  /\ load_from_file (Returns Samples.toy_file) init
     = (Raises (InvalidProductDataError
                  (ErrorLoadingData
                     (InvalidProductDataError
                        (UnknownProductType (PStr "Toy"))))),
        [(KStr "E001", Samples.phone)]).
Proof.
  split.
  - exists (PStr "Toy"). split; reflexivity.
  - apply (proj2 (proj2 (proj2 (load_from_file_failures init)))
             [PDict (to_dict Samples.phone)]
             [("type", PStr "Toy"); ("product_id", PStr "T001")]
             [PDict (to_dict Samples.shirt)] (PStr "Toy")
             [(KStr "E001", Samples.phone)]); reflexivity.
Defined.

(** *** Round trip *)

(** A round of the loop on the record that [to_dict] makes of a product
    gives the product back, in its own class. *)
Lemma reconstruct_to_dict (p : Product) (k : key) :
  py_hash (_product_id p) = Returns k ->
  reconstruct (PDict (to_dict p)) = Returns (k, p).
Proof.
  intro Hk. destruct p; unfold reconstruct; simpl in *; now rewrite Hk.
Qed.

Lemma load_saved (s2 s1 : Inventory) :
  NoDup (Dict.keys (s1 ++ s2)) ->
  (forall k p, In (k, p) s2 -> py_hash (_product_id p) = Returns k) ->
  for_each (map (fun p => PDict (to_dict p)) (Dict.values s2)) load_item s1
  = (Returns tt, s1 ++ s2).
Proof.
  revert s1. induction s2 as [|[k p] s2 IH]; intros s1 ND Hk; simpl.
  - now rewrite app_nil_r.
  - unfold bind. rewrite load_item_reconstruct.
    rewrite (reconstruct_to_dict p k) by (apply Hk; now left).
    rewrite setitem_absent.
    + fold (Dict.values s2). rewrite IH.
      * now rewrite <- app_assoc.
      * now rewrite <- app_assoc.
      * intros k' p' H. apply Hk. now right.
    + apply contains_false_In. unfold Dict.keys in *.
      rewrite map_app in ND. simpl in ND.
      apply NoDup_remove_2 in ND. intro H. apply ND.
      apply in_or_app. now left.
Qed.

(** *** Merging *)

Lemma create_product_id (t : pyval) (data : record) (p : Product) :
  _create_product_from_dict t data = Returns p ->
  lookup "product_id" data = Some (_product_id p).
Proof.
  unfold _create_product_from_dict, Electronics_of, Grocery_of, Clothing_of.
  destruct (eq_str t "Electronics");
    [|destruct (eq_str t "Grocery"); [|destruct (eq_str t "Clothing")]];
    try discriminate;
    match goal with
    | |- context [bind_keywords ?ps data] =>
        destruct (bind_keywords ps data) as [arg|e] eqn:E; simpl;
        [|discriminate];
        intros [= <-]; simpl;
        apply (bind_keywords_bound ps data arg "product_id" E);
        simpl; auto
    end.
Qed.

(** The key under which a round of the loop files a record is the key of
    the record's [product_id]. *)
Lemma reconstruct_record_id (item : pyval) (k : key) (p : Product) :
  reconstruct item = Returns (k, p) -> record_id item = Some k.
Proof.
  unfold reconstruct, pop, record_id.
  destruct item as [| | | | | |d]; try discriminate.
  destruct (lookup "type" d) as [t|] eqn:Ht; [|discriminate]. simpl.
  destruct (_create_product_from_dict t (discard "type" d)) as [p'|e] eqn:C;
    simpl; [|discriminate].
  apply create_product_id in C.
  rewrite lookup_discard_ne in C by discriminate. rewrite C.
  destruct (py_hash (_product_id p')); simpl; [|discriminate].
  now intros [= -> _].
Qed.

Lemma for_each_load_untouched (items : list pyval) (s : Inventory) (k : key) :
  ~ In (Some k) (map record_id items) ->
  Dict.getitem k (snd (for_each items load_item s)) = Dict.getitem k s.
Proof.
  revert s. induction items as [|item items IH]; intros s Hk; [reflexivity|].
  simpl. unfold bind. rewrite load_item_reconstruct.
  destruct (reconstruct item) as [[k' p']|e] eqn:R; [|reflexivity].
  rewrite IH.
  - apply getitem_setitem_ne. intros ->.
    apply Hk. left. now apply (reconstruct_record_id item k p').
  - intro H. apply Hk. now right.
Qed.

Lemma snd_load_from_file_list (items : list pyval) (s : Inventory) :
  snd (load_from_file (Returns (PList items)) s)
  = snd (for_each items load_item s).
Proof.
  rewrite load_from_file_list.
  now destruct (for_each items load_item s) as [[a|e] s'].
Qed.

(** Loading a saved inventory into any inventory files every saved
    product under its id. *)
Lemma load_saved_into (s : Inventory) :
  NoDup (Dict.keys s) ->
  (forall k p, In (k, p) s -> py_hash (_product_id p) = Returns k) ->
  forall s0,
    fst (for_each (map (fun p => PDict (to_dict p)) (Dict.values s))
           load_item s0) = Returns tt
    /\ forall k p, In (k, p) s ->
         Dict.getitem k
           (snd (for_each (map (fun p => PDict (to_dict p)) (Dict.values s))
                   load_item s0))
         = Some p.
Proof.
  induction s as [|[k1 p1] s IH]; intros ND Hk s0; simpl.
  - split; [reflexivity | contradiction].
  - inversion ND as [|? ? Hk1 ND']; subst.
    assert (forall k p, In (k, p) s -> py_hash (_product_id p) = Returns k)
      as Hk' by (intros k p H; apply Hk; now right).
    unfold bind. rewrite load_item_reconstruct.
    rewrite (reconstruct_to_dict p1 k1) by (apply Hk; now left).
    fold (Dict.values s).
    destruct (IH ND' Hk' (Dict.setitem k1 p1 s0)) as [F G].
    split; [exact F|].
    intros k p [[= <- <-] | Hin]; [|now apply G].
    rewrite for_each_load_untouched; [apply getitem_setitem_eq|].
    intro H. apply Hk1. unfold Dict.values in H. rewrite !map_map in H.
    apply in_map_iff in H as [[k' p'] [E Hin]]. cbv beta in E.
    rewrite (reconstruct_record_id _ k' p') in E
      by (apply reconstruct_to_dict; now apply Hk').
    injection E as ->. change k1 with (fst (k1, p')). now apply in_map.
Qed.

(** C2. Loading what [save_to_file] wrote into a new inventory gives the
    saved inventory back: the same products with the same fields, each in
    its own class, under the same ids and in the same order.  The file is
    the document that [json.dump] is given and [json.load] returns. *)
Theorem load_save_round_trip (s : Inventory) :
  well_keyed s ->
  load_from_file (Returns (save_to_file s)) init = (Returns tt, s)
  /\ list_all_products (snd (load_from_file (Returns (save_to_file s)) init))
     = list_all_products s
  /\ (forall s0 k p,
        In (k, p) s ->
        fst (load_from_file (Returns (save_to_file s)) s0) = Returns tt
        /\ Dict.getitem k (snd (load_from_file (Returns (save_to_file s)) s0))
           = Some p).
Proof.
  intros [ND Hk].
  assert (load_from_file (Returns (save_to_file s)) init = (Returns tt, s))
    as E.
  { unfold save_to_file, init. rewrite load_from_file_list.
    now rewrite (load_saved s [] ND Hk). }
  rewrite E. repeat split.
  - unfold save_to_file. rewrite load_from_file_list.
    destruct (load_saved_into s ND Hk s0) as [F _].
    destruct (for_each _ load_item s0) as [[a|e] s']; simpl in *;
      [now destruct a | discriminate].
  - unfold save_to_file. rewrite snd_load_from_file_list.
    now apply (load_saved_into s ND Hk s0).
Qed.

Lemma round_trip_inventory_well_keyed :
  well_keyed (Samples.sample_inventory
              ++ [(KStr "C000", Samples.sold_out)]).
Proof.
  split.
  - repeat constructor; simpl; intuition discriminate.
  - intros k p [E | [E | [E | [E | []]]]]; injection E as <- <-; reflexivity.
Qed.

Lemma load_save_round_trip_witness :
  load_from_file
    (Returns (save_to_file (Samples.sample_inventory
                            ++ [(KStr "C000", Samples.sold_out)])))
    init
  = (Returns tt, Samples.sample_inventory ++ [(KStr "C000", Samples.sold_out)]).
Proof.
  apply (load_save_round_trip
           (Samples.sample_inventory ++ [(KStr "C000", Samples.sold_out)])).
  exact round_trip_inventory_well_keyed.
Defined.


(** C10. [load_from_file] neither clears the inventory nor undoes what it
    did when it fails.  A product filed under an id that no record of the
    file carries is still there after the call, whether the call succeeds
    or fails; a record that a round of the loop turns into a product
    replaces what was filed under its id, and the product stays unless a
    later record carries the same id; and when a record makes the call
    fail with [InvalidProductDataError], the inventory is left as loading
    the records before it alone leaves it. *)
Theorem load_from_file_merges (s : Inventory) :
  (forall file k,
      (forall data items,
          file = Returns data -> iterate data = Returns items ->
          ~ In (Some k) (map record_id items)) ->
      Dict.getitem k (snd (load_from_file file s)) = Dict.getitem k s)
  /\ (forall pre bad post s1 cause,
        load_from_file (Returns (PList pre)) s = (Returns tt, s1) ->
        fst (load_item bad s1) = Raises cause ->
        load_from_file (Returns (PList (pre ++ bad :: post))) s
        = (Raises (InvalidProductDataError (ErrorLoadingData cause)), s1))
  /\ (forall pre item post k p,
        fst (load_from_file (Returns (PList pre)) s) = Returns tt ->
        load_item item init = (Returns tt, [(k, p)]) ->
        ~ In (Some k) (map record_id post) ->
        Dict.getitem k
          (snd (load_from_file (Returns (PList (pre ++ item :: post))) s))
        = Some p).
Proof.
  split; [|split].
  - intros [data|e] k Hk; [|reflexivity].
    unfold load_from_file, try_except, bind, lift.
    destruct (iterate data) as [items|e] eqn:I; [|reflexivity].
    specialize (Hk data items eq_refl I).
    rewrite <- (for_each_load_untouched items s k Hk).
    now destruct (for_each items load_item s) as [[a|e] s'].
  - intros pre bad post s1 cause Hpre Hbad.
    apply load_succeeds_inv in Hpre.
    rewrite load_from_file_list, for_each_app, Hpre. simpl. unfold bind.
    rewrite load_item_reconstruct in *.
    destruct (reconstruct bad) as [[k p]|e]; [discriminate|].
    simpl in Hbad. now injection Hbad as ->.
  - intros pre item post k p Hpre Hitem Hk.
    rewrite load_item_reconstruct in Hitem.
    destruct (reconstruct item) as [[k' p']|e] eqn:R; [|discriminate].
    simpl in Hitem. injection Hitem as -> ->.
    rewrite snd_load_from_file_list, for_each_app.
    rewrite load_from_file_list in Hpre.
    destruct (for_each pre load_item s) as [[[]|e] s1]; [|discriminate].
    simpl. unfold bind. rewrite load_item_reconstruct, R.
    rewrite (for_each_load_untouched post _ k Hk).
    apply getitem_setitem_eq.
Qed.

Lemma load_from_file_merges_witness :
  load_from_file (Returns Samples.toy_file) [(KStr "G001", Samples.milk)]
  = (Raises (InvalidProductDataError
               (ErrorLoadingData
                  (InvalidProductDataError
                     (UnknownProductType (PStr "Toy"))))),
     [(KStr "G001", Samples.milk); (KStr "E001", Samples.phone)]).
Proof.
  apply (proj1 (proj2 (load_from_file_merges [(KStr "G001", Samples.milk)]))
           [PDict (to_dict Samples.phone)]
           (PDict [("type", PStr "Toy"); ("product_id", PStr "T001")])
           [PDict (to_dict Samples.shirt)]
           [(KStr "G001", Samples.milk); (KStr "E001", Samples.phone)]
           (InvalidProductDataError (UnknownProductType (PStr "Toy"))));
    reflexivity.
Defined.

(** ** Every inventory that the operations build is well keyed *)

Lemma NoDup_keys_setitem (k : key) (p : Product) (s : Inventory) :
  NoDup (Dict.keys s) -> NoDup (Dict.keys (Dict.setitem k p s)).
Proof.
  intro ND. rewrite keys_setitem.
  destruct (Dict.contains k s) eqn:E; [exact ND|].
  apply contains_false_In in E.
  apply NoDup_rev in ND. rewrite <- (rev_involutive (_ ++ _)).
  apply NoDup_rev. rewrite rev_app_distr. simpl.
  constructor; [|exact ND]. now rewrite <- in_rev.
Qed.

Lemma NoDup_keys_remove (k : key) (s : Inventory) :
  NoDup (Dict.keys s) -> NoDup (Dict.keys (Dict.remove k s)).
Proof.
  induction s as [|[k' p'] s IH]; simpl; [trivial|].
  intro ND. inversion ND as [|? ? Hk ND']; subst.
  destruct (key_eqb k k'); simpl; [exact ND'|].
  constructor; [|auto].
  intro H. apply Hk. unfold Dict.keys in *.
  apply in_map_iff in H as [[k0 p0] [E H]]. simpl in E. subst k0.
  apply In_remove in H. change k' with (fst (k', p0)). now apply in_map.
Qed.

Lemma well_keyed_setitem (k : key) (p : Product) (s : Inventory) :
  py_hash (_product_id p) = Returns k ->
  well_keyed s -> well_keyed (Dict.setitem k p s).
Proof.
  intros Hp [ND Hk]. split; [now apply NoDup_keys_setitem|].
  intros k' p' H. apply In_setitem in H as [[= -> ->] | H]; auto.
Qed.

Lemma well_keyed_remove (k : key) (s : Inventory) :
  well_keyed s -> well_keyed (Dict.remove k s).
Proof.
  intros [ND Hk]. split; [now apply NoDup_keys_remove|].
  intros k' p' H. apply Hk. now apply In_remove in H.
Qed.

Lemma sell_keeps_id (q : Z) (p : Product) :
  _product_id (snd (sell q p)) = _product_id p.
Proof.
  unfold sell. run_method.
  destruct (int_gt q (_quantity_in_stock p)) as [[|]|e]; simpl;
    try reflexivity.
  destruct (isub_int (_quantity_in_stock p) q); simpl; [|reflexivity].
  apply product_id_set_quantity.
Qed.

Lemma restock_keeps_id (a : Z) (p : Product) :
  _product_id (snd (restock a p)) = _product_id p.
Proof.
  unfold restock. run_method.
  destruct (iadd_int (_quantity_in_stock p) a); simpl; [|reflexivity].
  apply product_id_set_quantity.
Qed.

Lemma well_keyed_on_product {A} (k : key) (m : M Product A) (s : Inventory) :
  (forall p, _product_id (snd (m p)) = _product_id p) ->
  well_keyed s -> well_keyed (snd (on_product k m s)).
Proof.
  intros Hm W. unfold on_product.
  destruct (Dict.getitem k s) as [p|] eqn:E; [|exact W].
  specialize (Hm p). destruct (m p) as [r p']. simpl in *.
  apply well_keyed_setitem; [|exact W].
  rewrite Hm. destruct W as [_ Hk]. apply Hk. now apply getitem_In.
Qed.

Lemma well_keyed_for_each_delitem (ids : list key) (s : Inventory) :
  well_keyed s -> well_keyed (snd (for_each ids Dict.delitem s)).
Proof.
  revert s. induction ids as [|k ids IH]; intros s W; simpl; [exact W|].
  unfold bind, Dict.delitem.
  destruct (Dict.contains k s); simpl; [|exact W].
  apply IH. now apply well_keyed_remove.
Qed.

Lemma well_keyed_for_each_load (items : list pyval) (s : Inventory) :
  well_keyed s -> well_keyed (snd (for_each items load_item s)).
Proof.
  revert s. induction items as [|item items IH]; intros s W; simpl;
    [exact W|].
  unfold bind. rewrite load_item_reconstruct.
  destruct (reconstruct item) as [[k p]|e] eqn:R; [|exact W].
  apply IH. apply well_keyed_setitem; [|exact W].
  revert R. unfold reconstruct.
  destruct (pop "type" item) as [popped|e]; simpl; [|discriminate].
  destruct (_create_product_from_dict _ _) as [p'|e]; simpl; [|discriminate].
  destruct (py_hash (_product_id p')) eqn:H; simpl; [|discriminate].
  now intros [= <- <-].
Qed.

(** X25. The new inventory is well keyed, and every method leaves a well
    keyed inventory well keyed, whether it returns or raises: no method
    ever files two products under one key, or a product under a key that
    is not the key of its own id. *)
Lemma well_keyed_reachable :
  well_keyed init
  /\ forall s, well_keyed s ->
       (forall product, well_keyed (snd (add_product product s)))
       /\ (forall product_id, well_keyed (snd (remove_product product_id s)))
       /\ (forall product_id quantity,
             well_keyed (snd (sell_product product_id quantity s)))
       /\ (forall product_id quantity,
             well_keyed (snd (restock_product product_id quantity s)))
       /\ (forall strptime clock,
             well_keyed (snd (remove_expired_products strptime clock s)))
       /\ (forall file, well_keyed (snd (load_from_file file s))).
Proof.
  split.
  - split; [constructor | intros k p []].
  - intros s W. repeat split.
    + unfold add_product. run_method.
      destruct (py_hash (_product_id product)) as [k|e] eqn:H; simpl;
        [|apply W].
      destruct (Dict.contains k s); simpl; [apply W|].
      now apply well_keyed_setitem.
    + unfold add_product. run_method.
      destruct (py_hash (_product_id product)) as [k'|e] eqn:H; simpl;
        [|apply W].
      destruct (Dict.contains k' s); simpl; [apply W|].
      now apply well_keyed_setitem.
    + unfold remove_product. run_method.
      destruct s as [|kp s']; [apply W|].
      destruct (py_hash product_id) as [k|e]; [|apply W].
      apply (well_keyed_remove k (kp :: s') W).
    + unfold remove_product. run_method.
      destruct s as [|kp s']; [apply W|].
      destruct (py_hash product_id) as [k'|e]; [|apply W].
      apply (well_keyed_remove k' (kp :: s') W).
    + unfold sell_product. run_method.
      destruct (py_hash product_id) as [k|e]; simpl; [|apply W].
      destruct (Dict.contains k s); simpl; [|apply W].
      apply well_keyed_on_product; [apply sell_keeps_id | exact W].
    + unfold sell_product. run_method.
      destruct (py_hash product_id) as [k'|e]; simpl; [|apply W].
      destruct (Dict.contains k' s); simpl; [|apply W].
      apply well_keyed_on_product; [apply sell_keeps_id | exact W].
    + unfold restock_product. run_method.
      destruct (py_hash product_id) as [k|e]; simpl; [|apply W].
      destruct (Dict.contains k s); simpl; [|apply W].
      apply well_keyed_on_product; [apply restock_keeps_id | exact W].
    + unfold restock_product. run_method.
      destruct (py_hash product_id) as [k'|e]; simpl; [|apply W].
      destruct (Dict.contains k' s); simpl; [|apply W].
      apply well_keyed_on_product; [apply restock_keeps_id | exact W].
    + unfold remove_expired_products. run_method. unfold Dict.items.
      destruct (expired_ids strptime clock 0 s); simpl; [|apply W].
      now apply well_keyed_for_each_delitem.
    + unfold remove_expired_products. run_method. unfold Dict.items.
      destruct (expired_ids strptime clock 0 s); simpl; [|apply W].
      now apply well_keyed_for_each_delitem.
    + unfold load_from_file, try_except, bind, lift.
      destruct file as [data|e]; [|apply W].
      destruct (iterate data) as [items|e]; [|apply W].
      pose proof (well_keyed_for_each_load items s W) as [H _].
      now destruct (for_each items load_item s) as [[a|e] s'].
    + unfold load_from_file, try_except, bind, lift.
      destruct file as [data|e]; [|apply W].
      destruct (iterate data) as [items|e]; [|apply W].
      pose proof (well_keyed_for_each_load items s W) as [_ H].
      now destruct (for_each items load_item s) as [[a|e] s'].
Qed.

(** ** What loads without an error

    A document that is no list of records need not fail: an empty object
    and an empty string hold nothing to iterate over, and the values of a
    record's fields are stored as they come. *)
Example load_from_file_accepts :
  load_from_file (Returns (PDict [])) init = (Returns tt, init)
  /\ load_from_file (Returns (PStr "")) init = (Returns tt, init)
  /\ fst (load_from_file
            (Returns (PList [PDict [("type", PStr "Grocery");
                                    ("product_id", PStr "G009");
                                    ("name", PNone);
                                    ("price", PStr "free");
                                    ("quantity_in_stock", PStr "ten");
                                    ("expiry_date", PInt 0)]]))
            init)
     = Returns tt.
Proof. repeat split. Qed.

(** * Further properties of the inventory *)

(** ** More about dicts *)

Module DictMore.
Import Dict.

Section Facts.
Context {V : Type}.
Implicit Types (d : dict V) (k : key) (v : V).

Lemma remove_absent k d : contains k d = false -> remove k d = d.
Proof.
  induction d as [|[k' v'] d IH]; simpl; [reflexivity|].
  destruct (key_eqb k k'); simpl; [discriminate|].
  intro H. now rewrite IH.
Qed.

Lemma remove_app_last k v d :
  contains k d = false -> remove k (d ++ [(k, v)]) = d.
Proof.
  induction d as [|[k' v'] d IH]; simpl.
  - now rewrite key_eqb_refl.
  - destruct (key_eqb k k'); simpl; [discriminate|].
    intro H. now rewrite IH.
Qed.

Lemma contains_remove k d :
  NoDup (keys d) -> contains k (remove k d) = false.
Proof.
  induction d as [|[k' v'] d IH]; simpl; [reflexivity|].
  intro ND. inversion ND as [|? ? Hk ND']; subst.
  destruct (key_eqb k k') eqn:E; simpl.
  - apply key_eqb_eq in E. subst. now apply contains_false_In.
  - rewrite E. simpl. auto.
Qed.

Lemma getitem_remove_ne k k' d :
  k <> k' -> getitem k' (remove k d) = getitem k' d.
Proof.
  intro N. induction d as [|[k0 v0] d IH]; simpl; [reflexivity|].
  destruct (key_eqb k k0) eqn:E; simpl.
  - apply key_eqb_eq in E. subst k0.
    assert (key_eqb k' k = false) as -> by (apply key_eqb_neq; congruence).
    reflexivity.
  - now rewrite IH.
Qed.

Lemma length_remove k d :
  contains k d = true -> S (List.length (remove k d)) = List.length d.
Proof.
  induction d as [|[k' v'] d IH]; simpl; [discriminate|].
  destruct (key_eqb k k'); simpl; [reflexivity|].
  intro H. now rewrite IH.
Qed.

Lemma contains_setitem k k' v d :
  contains k' (setitem k v d) = contains k' d || key_eqb k' k.
Proof.
  induction d as [|[k0 v0] d IH]; simpl.
  - now rewrite orb_false_r.
  - destruct (key_eqb k k0) eqn:E; simpl.
    + apply key_eqb_eq in E. subst k0.
      destruct (key_eqb k' k); simpl; [reflexivity|].
      now rewrite orb_false_r.
    + rewrite IH. now rewrite orb_assoc.
Qed.

Lemma keys_setitem_present k v d :
  contains k d = true -> keys (setitem k v d) = keys d.
Proof. intro H. now rewrite keys_setitem, H. Qed.

Lemma setitem_setitem k v v' d :
  setitem k v' (setitem k v d) = setitem k v' d.
Proof.
  induction d as [|[k0 v0] d IH]; simpl.
  - now rewrite key_eqb_refl.
  - destruct (key_eqb k k0) eqn:E; simpl; rewrite E; [reflexivity|].
    now rewrite IH.
Qed.

Lemma getitem_setitem k k' v d :
  getitem k' (setitem k v d)
  = if key_eqb k' k then Some v else getitem k' d.
Proof.
  destruct (key_eqb k' k) eqn:E.
  - apply key_eqb_eq in E. subst. apply getitem_setitem_eq.
  - apply getitem_setitem_ne. apply key_eqb_neq in E. congruence.
Qed.

(** Two dicts with the same keys in the same order and the same value
    under every key are the same dict. *)
Lemma dict_ext d1 d2 :
  NoDup (keys d1) ->
  keys d1 = keys d2 ->
  (forall k, getitem k d1 = getitem k d2) ->
  d1 = d2.
Proof.
  revert d2. induction d1 as [|[k v] d1 IH]; intros [|[k' v'] d2] ND Hk Hg;
    try discriminate; [reflexivity|].
  simpl in Hk. injection Hk as <- Hk.
  inversion ND as [|? ? Hn ND']; subst.
  pose proof (Hg k) as Hv. simpl in Hv. rewrite key_eqb_refl in Hv.
  injection Hv as <-.
  f_equal. apply IH; [exact ND' | exact Hk |].
  intro k0. destruct (key_eqb k0 k) eqn:E.
  - apply key_eqb_eq in E. subst k0.
    assert (getitem k d1 = None) as ->
      by (apply getitem_None; now apply contains_false_In).
    symmetry. apply getitem_None. apply contains_false_In.
    now rewrite <- Hk.
  - specialize (Hg k0). simpl in Hg. now rewrite E in Hg.
Qed.

End Facts.
End DictMore.
Import DictMore.

(** ** Removing and replacing products *)

(** X1. [remove_product] with an id that is no key of the inventory changes
    nothing and raises nothing; on an empty inventory this holds for every
    argument, hashable or not. *)
Theorem remove_product_absent
        (s : Inventory) (product_id : pyval) (k : key) :
  py_hash product_id = Returns k ->
  Dict.contains k s = false ->
  remove_product product_id s = (Returns tt, s)
  /\ forall anything, remove_product anything init = (Returns tt, init).
Proof.
  intros Hk Hc. split; [|reflexivity].
  unfold remove_product. run_method.
  destruct s as [|kp s']; [reflexivity|].
  rewrite Hk. simpl. f_equal. exact (remove_absent k (kp :: s') Hc).
Qed.

Lemma remove_product_absent_witness :
  remove_product (PStr "INVALID_ID") Samples.sample_inventory
  = (Returns tt, Samples.sample_inventory).
Proof.
  apply (remove_product_absent Samples.sample_inventory (PStr "INVALID_ID")
           (KStr "INVALID_ID")); reflexivity.
Defined.

(** X2. [remove_product] with an id that is a key takes exactly that entry
    out: the id is no key afterwards, every other id keeps its product, and
    the inventory has one product less. *)
Theorem remove_product_present
        (s : Inventory) (product_id : pyval) (k : key) :
  NoDup (Dict.keys s) ->
  py_hash product_id = Returns k ->
  Dict.contains k s = true ->
  remove_product product_id s = (Returns tt, Dict.remove k s)
  /\ Dict.contains k (snd (remove_product product_id s)) = false
  /\ (forall k', k' <> k ->
        Dict.getitem k' (snd (remove_product product_id s))
        = Dict.getitem k' s)
  /\ S (List.length (list_all_products (snd (remove_product product_id s))))
     = List.length (list_all_products s).
Proof.
  intros ND Hk Hc.
  assert (remove_product product_id s = (Returns tt, Dict.remove k s)) as E.
  { unfold remove_product. run_method.
    destruct s as [|kp s']; [discriminate|]. now rewrite Hk. }
  rewrite E. simpl. repeat split.
  - now apply contains_remove.
  - intros k' N. apply getitem_remove_ne. congruence.
  - unfold list_all_products, Dict.values. rewrite !length_map.
    now apply length_remove.
Qed.

Lemma remove_product_present_witness :
  remove_product (PStr "G001") Samples.sample_inventory
  = (Returns tt, [(KStr "E001", Samples.phone); (KStr "C001", Samples.shirt)]).
Proof.
  apply (remove_product_present Samples.sample_inventory (PStr "G001")
           (KStr "G001") sample_inventory_keys); reflexivity.
Defined.

(** X3. Adding a product under a new id and then removing that id gives the
    inventory back as it was. *)
Theorem add_then_remove (s : Inventory) (product : Product) (k : key) :
  py_hash (_product_id product) = Returns k ->
  Dict.contains k s = false ->
  (add_product product ;;; remove_product (_product_id product)) s
  = (Returns tt, s).
Proof.
  intros Hk Hc. unfold add_product, remove_product. run_method.
  rewrite Hk. simpl. rewrite Hc. simpl.
  rewrite (setitem_absent k product s Hc).
  destruct (s ++ [(k, product)]) as [|kp s'] eqn:E.
  - now destruct s.
  - rewrite <- E. f_equal. now apply remove_app_last.
Qed.

Lemma add_then_remove_witness :
  (add_product Samples.yogurt ;;; remove_product (PStr "G002"))
    Samples.sample_inventory
  = (Returns tt, Samples.sample_inventory).
Proof.
  apply (add_then_remove Samples.sample_inventory Samples.yogurt
           (KStr "G002")); reflexivity.
Defined.

(** X4. After [remove_product] of an id, a product with that id can be
    added again: the call succeeds and files the product at the end. *)
Theorem remove_then_add (s : Inventory) (product : Product) (k : key) :
  NoDup (Dict.keys s) ->
  py_hash (_product_id product) = Returns k ->
  (remove_product (_product_id product) ;;; add_product product) s
  = (Returns tt, Dict.remove k s ++ [(k, product)]).
Proof.
  intros ND Hk.
  unfold add_product, remove_product, bind, get, put, lift, ret, raise.
  destruct s as [|kp s'].
  - simpl. now rewrite Hk.
  - cbv beta iota. rewrite Hk. cbv beta iota.
    rewrite (contains_remove k (kp :: s') ND).
    f_equal. apply setitem_absent. now apply contains_remove.
Qed.

Lemma remove_then_add_witness :
  (remove_product (PStr "E001") ;;; add_product Samples.phone)
    Samples.sample_inventory
  = (Returns tt,
     [(KStr "G001", Samples.milk); (KStr "C001", Samples.shirt);
      (KStr "E001", Samples.phone)]).
Proof.
  apply (remove_then_add Samples.sample_inventory Samples.phone
           (KStr "E001") sample_inventory_keys). reflexivity.
Defined.

(** ** Selling and restocking inside the inventory *)

Lemma on_product_keys {A} (k : key) (m : M Product A) (s : Inventory) :
  Dict.keys (snd (on_product k m s)) = Dict.keys s.
Proof.
  unfold on_product.
  destruct (Dict.getitem k s) as [p|] eqn:E; [|reflexivity].
  destruct (m p) as [r p']. simpl.
  apply keys_setitem_present. apply getitem_contains. eauto.
Qed.

Lemma on_product_others {A} (k k' : key) (m : M Product A) (s : Inventory) :
  k' <> k ->
  Dict.getitem k' (snd (on_product k m s)) = Dict.getitem k' s.
Proof.
  intro N. unfold on_product.
  destruct (Dict.getitem k s) as [p|] eqn:E; [|reflexivity].
  destruct (m p) as [r p']. simpl.
  apply getitem_setitem_ne. congruence.
Qed.

(** X5. [sell_product] and [restock_product] neither add nor remove a
    product nor change the order of the inventory, whatever they return or
    raise, and they leave every product alone that is not filed under the
    key of the id they are given. *)
Theorem stock_calls_touch_one_product
        (s : Inventory) (product_id : pyval) (quantity : Z) :
  Dict.keys (snd (sell_product product_id quantity s)) = Dict.keys s
  /\ Dict.keys (snd (restock_product product_id quantity s)) = Dict.keys s
  /\ forall k',
       py_hash product_id <> Returns k' ->
       Dict.getitem k' (snd (sell_product product_id quantity s))
       = Dict.getitem k' s
       /\ Dict.getitem k' (snd (restock_product product_id quantity s))
          = Dict.getitem k' s.
Proof.
  unfold sell_product, restock_product. run_method.
  destruct (py_hash product_id) as [k|e]; simpl.
  - destruct (Dict.contains k s); simpl.
    + split; [apply on_product_keys|]. split; [apply on_product_keys|].
      intros k' N. split; apply on_product_others; congruence.
    + repeat split.
  - repeat split.
Qed.

(** What [sell] and [restock] leave when they raise is the product as it
    was. *)
Lemma sell_raises_unchanged (q : Z) (p p' : Product) (e : exn) :
  sell q p = (Raises e, p') -> p' = p.
Proof.
  unfold sell. run_method.
  destruct (int_gt q (_quantity_in_stock p)) as [[|]|e0]; simpl;
    try congruence.
  destruct (isub_int (_quantity_in_stock p) q); simpl; congruence.
Qed.

Lemma restock_raises_unchanged (a : Z) (p p' : Product) (e : exn) :
  restock a p = (Raises e, p') -> p' = p.
Proof.
  unfold restock. run_method.
  destruct (iadd_int (_quantity_in_stock p) a); simpl; congruence.
Qed.

Lemma on_product_raises_unchanged {A} (k : key) (m : M Product A)
      (s s' : Inventory) (e : exn) :
  (forall p p' e', m p = (Raises e', p') -> p' = p) ->
  on_product k m s = (Raises e, s') -> s' = s.
Proof.
  intros Hm. unfold on_product.
  destruct (Dict.getitem k s) as [p|] eqn:E; [|congruence].
  destruct (m p) as [[a|e'] p'] eqn:R; [discriminate|].
  intros [= _ <-]. rewrite (Hm p p' e' R). now apply setitem_same.
Qed.

Lemma for_each_delitem_returns (ids : list key) (s : Inventory) (e : exn)
      (s' : Inventory) :
  (forall k, In k ids -> Dict.contains k s = true) ->
  NoDup ids ->
  for_each ids Dict.delitem s <> (Raises e, s').
Proof.
  revert s. induction ids as [|k ids IH]; intros s Hin ND; simpl;
    [discriminate|].
  unfold bind, Dict.delitem. rewrite (Hin k (or_introl eq_refl)).
  inversion ND as [|? ? Hk ND']; subst.
  apply IH; [|exact ND'].
  intros k' Hk'. 
  assert (Dict.contains k' s = true) as C by (apply Hin; now right).
  apply getitem_contains in C as [v C].
  apply getitem_contains. exists v.
  rewrite getitem_remove_ne; [exact C|]. intros ->. contradiction.
Qed.

Lemma expired_ids_keys (strptime : string -> outcome date)
      (clock : nat -> date) (items : list (key * Product)) :
  NoDup (map fst items) ->
  forall n ids,
    expired_ids strptime clock n items = Returns ids ->
    NoDup ids /\ forall k, In k ids -> In k (map fst items).
Proof.
  induction items as [|[k0 p0] items IH]; intros ND n ids H; simpl in H.
  - injection H as <-. split; [constructor | contradiction].
  - inversion ND as [|? ? Hk ND']; subst.
    destruct (isinstance_Grocery p0).
    + destruct (is_expired strptime (clock n) p0) as [b|e]; simpl in H;
        [|discriminate].
      destruct (expired_ids strptime clock (S n) items) as [rest|e] eqn:R;
        simpl in H; [|discriminate].
      destruct (IH ND' _ _ R) as [NDr Hr].
      injection H as <-. destruct b.
      * split.
        -- constructor; [|exact NDr]. intro Hin. apply Hk. now apply Hr.
        -- intros k [<- | Hin]; [now left | right; now apply Hr].
      * split; [exact NDr|]. intros k Hin. right. now apply Hr.
    + destruct (IH ND' _ _ H) as [NDr Hr].
      split; [exact NDr|]. intros k Hin. right. now apply Hr.
Qed.

(** X6. A call of [add_product], [remove_product], [sell_product],
    [restock_product] or [remove_expired_products] that raises leaves the
    inventory exactly as it was. *)
Theorem failed_call_changes_nothing (s : Inventory) :
  NoDup (Dict.keys s) ->
  forall e s',
    (forall product, add_product product s = (Raises e, s') -> s' = s)
    /\ (forall product_id,
          remove_product product_id s = (Raises e, s') -> s' = s)
    /\ (forall product_id quantity,
          sell_product product_id quantity s = (Raises e, s') -> s' = s)
    /\ (forall product_id amount,
          restock_product product_id amount s = (Raises e, s') -> s' = s)
    /\ (forall strptime clock,
          remove_expired_products strptime clock s = (Raises e, s') ->
          s' = s).
Proof.
  intros ND e s'. repeat split.
  - intro product. unfold add_product. run_method.
    destruct (py_hash (_product_id product)) as [k|e0]; simpl;
      [|congruence].
    destruct (Dict.contains k s); simpl; congruence.
  - intro product_id. unfold remove_product. run_method.
    destruct s as [|kp s0]; [discriminate|].
    destruct (py_hash product_id) as [k|e0]; [discriminate | congruence].
  - intros product_id quantity. unfold sell_product. run_method.
    destruct (py_hash product_id) as [k|e0]; simpl; [|congruence].
    destruct (Dict.contains k s); simpl; [|congruence].
    apply on_product_raises_unchanged. apply sell_raises_unchanged.
  - intros product_id amount. unfold restock_product. run_method.
    destruct (py_hash product_id) as [k|e0]; simpl; [|congruence].
    destruct (Dict.contains k s); simpl; [|congruence].
    apply on_product_raises_unchanged. apply restock_raises_unchanged.
  - intros strptime clock. unfold remove_expired_products. run_method.
    unfold Dict.items.
    destruct (expired_ids strptime clock 0 s) as [ids|e0] eqn:E; simpl;
      [|congruence].
    intro H. exfalso.
    destruct (expired_ids_keys strptime clock s ND 0 ids E) as [NDi Hi].
    apply (for_each_delitem_returns ids s e s'); [|exact NDi|exact H].
    intros k Hk. apply contains_In. now apply Hi.
Qed.

Lemma failed_call_changes_nothing_witness :
  snd (sell_product (PStr "E001") 100 Samples.sample_inventory)
  = Samples.sample_inventory.
Proof.
  exact (proj1 (proj2 (proj2
           (failed_call_changes_nothing Samples.sample_inventory
              sample_inventory_keys (OutOfStockError (PStr "Phone"))
              (snd (sell_product (PStr "E001") 100
                      Samples.sample_inventory)))))
           (PStr "E001") 100 eq_refl).
Defined.

Lemma set_quantity_same (p : Product) (q : pyval) :
  _quantity_in_stock p = q -> set_quantity_in_stock q p = p.
Proof. intros <-. now destruct p. Qed.

Lemma set_quantity_twice (p : Product) (q q' : pyval) :
  set_quantity_in_stock q' (set_quantity_in_stock q p)
  = set_quantity_in_stock q' p.
Proof. now destruct p. Qed.

(** X7. [restock_product] of a product that the inventory holds adds
    exactly the amount to the integer stock of that product, and raises
    nothing. *)
Theorem restock_product_adds
        (s : Inventory) (product_id : pyval) (k : key) (p : Product)
        (n amount : Z) :
  py_hash product_id = Returns k ->
  Dict.getitem k s = Some p ->
  _quantity_in_stock p = PInt n ->
  restock_product product_id amount s
  = (Returns tt,
     Dict.setitem k (set_quantity_in_stock (PInt (n + amount)) p) s)
  /\ exists p', Dict.getitem k (snd (restock_product product_id amount s))
                = Some p'
                /\ _quantity_in_stock p' = PInt (n + amount).
Proof.
  intros Hk Hp Hn.
  rewrite (restock_product_found s product_id k p amount Hk Hp).
  rewrite (restock_int p n amount Hn). simpl. split; [reflexivity|].
  eexists. split; [apply getitem_setitem_eq | apply quantity_set_quantity].
Qed.

Lemma restock_product_adds_witness :
  restock_product (PStr "G001") 10 Samples.sample_inventory
  = (Returns tt,
     Dict.setitem (KStr "G001")
       (set_quantity_in_stock (PInt (20 + 10)) Samples.milk)
       Samples.sample_inventory).
Proof.
  apply (restock_product_adds Samples.sample_inventory (PStr "G001")
           (KStr "G001") Samples.milk 20 10); reflexivity.
Defined.

(** X8. Selling a quantity that is in stock and restocking the same
    quantity gives the inventory back as it was; so does restocking and
    then selling the same quantity, when the stock was not negative. *)
Theorem sell_and_restock_cancel
        (s : Inventory) (product_id : pyval) (k : key) (p : Product)
        (n q : Z) :
  py_hash product_id = Returns k ->
  Dict.getitem k s = Some p ->
  _quantity_in_stock p = PInt n ->
  (q <= n ->
     (sell_product product_id q ;;; restock_product product_id q) s
     = (Returns tt, s))
  /\ (0 <= n ->
        (restock_product product_id q ;;; sell_product product_id q) s
        = (Returns tt, s)).
Proof.
  intros Hk Hp Hn. split; intro H; unfold bind at 1.
  - rewrite (sell_product_found s product_id k p q Hk Hp).
    rewrite (sell_int p n q Hn).
    assert ((q >? n) = false) as -> by lia. simpl.
    rewrite (restock_product_found _ product_id k _ q Hk
               (getitem_setitem_eq k _ s)).
    rewrite (restock_int _ (n - q) q (quantity_set_quantity _ p)). simpl.
    rewrite setitem_setitem, set_quantity_twice.
    replace (n - q + q) with n by lia.
    rewrite (set_quantity_same p (PInt n) Hn).
    now rewrite (setitem_same k p s Hp).
  - rewrite (restock_product_found s product_id k p q Hk Hp).
    rewrite (restock_int p n q Hn). simpl.
    rewrite (sell_product_found _ product_id k _ q Hk
               (getitem_setitem_eq k _ s)).
    rewrite (sell_int _ (n + q) q (quantity_set_quantity _ p)).
    assert ((q >? n + q) = false) as -> by lia. simpl.
    rewrite setitem_setitem, set_quantity_twice.
    replace (n + q - q) with n by lia.
    rewrite (set_quantity_same p (PInt n) Hn).
    now rewrite (setitem_same k p s Hp).
Qed.

Lemma sell_and_restock_cancel_witness :
  (sell_product (PStr "E001") 4 ;;; restock_product (PStr "E001") 4)
    Samples.sample_inventory
  = (Returns tt, Samples.sample_inventory).
Proof.
  apply (sell_and_restock_cancel Samples.sample_inventory (PStr "E001")
           (KStr "E001") Samples.phone 10 4); [reflexivity .. | lia].
Defined.

(** X9. Two sales in a row that both succeed are one sale of the sum, and
    two restocks in a row are one restock of the sum. *)
Theorem stock_calls_add_up
        (s : Inventory) (product_id : pyval) (k : key) (p : Product)
        (n a b : Z) :
  py_hash product_id = Returns k ->
  Dict.getitem k s = Some p ->
  _quantity_in_stock p = PInt n ->
  (a <= n -> b <= n - a ->
     (sell_product product_id a ;;; sell_product product_id b) s
     = sell_product product_id (a + b) s)
  /\ (restock_product product_id a ;;; restock_product product_id b) s
     = restock_product product_id (a + b) s.
Proof.
  intros Hk Hp Hn. split; [intros Ha Hb|]; unfold bind at 1.
  - rewrite !(sell_product_found s product_id k p _ Hk Hp).
    rewrite !(sell_int p n _ Hn).
    assert ((a >? n) = false) as -> by lia.
    assert ((a + b >? n) = false) as -> by lia. simpl.
    rewrite (sell_product_found _ product_id k _ b Hk
               (getitem_setitem_eq k _ s)).
    rewrite (sell_int _ (n - a) b (quantity_set_quantity _ p)).
    assert ((b >? n - a) = false) as -> by lia. simpl.
    rewrite setitem_setitem, set_quantity_twice.
    now replace (n - a - b) with (n - (a + b)) by lia.
  - rewrite !(restock_product_found s product_id k p _ Hk Hp).
    rewrite !(restock_int p n _ Hn). simpl.
    rewrite (restock_product_found _ product_id k _ b Hk
               (getitem_setitem_eq k _ s)).
    rewrite (restock_int _ (n + a) b (quantity_set_quantity _ p)). simpl.
    rewrite setitem_setitem, set_quantity_twice.
    now replace (n + a + b) with (n + (a + b)) by lia.
Qed.

Lemma stock_calls_add_up_witness :
  (sell_product (PStr "E001") 4 ;;; sell_product (PStr "E001") 6)
    Samples.sample_inventory
  = sell_product (PStr "E001") (4 + 6) Samples.sample_inventory.
Proof.
  apply (stock_calls_add_up Samples.sample_inventory (PStr "E001")
           (KStr "E001") Samples.phone 10 4 6); [reflexivity .. | lia | lia].
Defined.

(** X10. [sell] and [restock] change nothing of a product but its stock:
    the class, the id, the name, the price and the fields of the subclass
    stay, whether the call returns or raises. *)
Theorem stock_methods_change_only_stock (p : Product) (q : Z) :
  (exists x, snd (sell q p) = set_quantity_in_stock x p)
  /\ (exists x, snd (restock q p) = set_quantity_in_stock x p)
  /\ forall p', p' = snd (sell q p) \/ p' = snd (restock q p) ->
       class_name p' = class_name p
       /\ _product_id p' = _product_id p
       /\ _name p' = _name p
       /\ _price p' = _price p
       /\ discard "quantity_in_stock" (to_dict p')
          = discard "quantity_in_stock" (to_dict p).
Proof.
  assert (exists x, snd (sell q p) = set_quantity_in_stock x p) as Hs.
  { unfold sell. run_method.
    destruct (int_gt q (_quantity_in_stock p)) as [[|]|e]; simpl;
      try (exists (_quantity_in_stock p); symmetry;
           now apply set_quantity_same).
    destruct (isub_int (_quantity_in_stock p) q) as [x|e]; simpl;
      [now exists x|].
    exists (_quantity_in_stock p). symmetry. now apply set_quantity_same. }
  assert (exists x, snd (restock q p) = set_quantity_in_stock x p) as Hr.
  { unfold restock. run_method.
    destruct (iadd_int (_quantity_in_stock p) q) as [x|e]; simpl;
      [now exists x|].
    exists (_quantity_in_stock p). symmetry. now apply set_quantity_same. }
  split; [exact Hs|]. split; [exact Hr|].
  intros p' [-> | ->]; [destruct Hs as [x ->] | destruct Hr as [x ->]];
    destruct p; repeat split.
Qed.

(** ** More about expiry *)

Lemma date_ltb_trans (a b c : date) :
  date_ltb a b = true -> date_ltb b c = true -> date_ltb a c = true.
Proof.
  unfold date_ltb. destruct a as [ya ma da], b as [yb mb db],
    c as [yc mc dc]. simpl.
  rewrite !orb_true_iff, !andb_true_iff, !orb_true_iff, !andb_true_iff.
  rewrite !Z.ltb_lt, !Z.eqb_eq. lia.
Qed.

(** X11. Once expired, always expired: a Grocery that [is_expired] finds
    expired on one day is found expired on every later day. *)
Theorem expired_stays_expired
        (strptime : string -> outcome date) (p : Product)
        (day later : date) :
  is_expired strptime day p = Returns true ->
  date_ltb day later = true ->
  is_expired strptime later p = Returns true.
Proof.
  unfold is_expired.
  destruct p as [| i n pr q e |]; try discriminate.
  destruct e as [| | | | s | |]; try discriminate.
  destruct (strptime s) as [d|err]; simpl; [|discriminate].
  intros [= H] L. f_equal. now apply (date_ltb_trans d day later).
Qed.

Lemma expired_stays_expired_witness :
  is_expired Strptime.strptime (Date 2024 5 11) Samples.milk = Returns true
  /\ is_expired Strptime.strptime (Date 2025 1 1) Samples.milk
     = Returns true.
Proof.
  split; [reflexivity|].
  apply (expired_stays_expired Strptime.strptime Samples.milk
           (Date 2024 5 11) (Date 2025 1 1)); reflexivity.
Defined.

Lemma expired_ids_raises (strptime : string -> outcome date)
      (clock : nat -> date) (items : list (key * Product)) (k : key)
      (p : Product) :
  In (k, p) items ->
  isinstance_Grocery p = true ->
  (forall today, exists e, is_expired strptime today p = Raises e) ->
  forall n, exists e, expired_ids strptime clock n items = Raises e.
Proof.
  intros Hin G Hp.
  induction items as [|[k0 p0] items IH]; intro n; [contradiction|].
  simpl. destruct Hin as [[= -> ->] | Hin].
  - rewrite G. destruct (Hp (clock n)) as [e ->]. simpl. eauto.
  - destruct (isinstance_Grocery p0); [|now apply IH].
    destruct (is_expired strptime (clock n) p0); simpl; [|eauto].
    destruct (IH Hin (S n)) as [e ->]. simpl. eauto.
Qed.

(** X12. One Grocery whose expiry date cannot be read blocks the pruning:
    [remove_expired_products] raises and removes nothing, not even the
    Groceries that have expired. *)
Theorem unreadable_date_blocks_pruning
        (strptime : string -> outcome date) (clock : nat -> date)
        (s : Inventory) (k : key) (p : Product) :
  In (k, p) s ->
  isinstance_Grocery p = true ->
  (forall today, exists e, is_expired strptime today p = Raises e) ->
  exists e, remove_expired_products strptime clock s = (Raises e, s).
Proof.
  intros Hin G Hp. unfold remove_expired_products. run_method.
  unfold Dict.items.
  destruct (expired_ids_raises strptime clock s k p Hin G Hp 0) as [e ->].
  simpl. eauto.
Qed.

Lemma unreadable_date_blocks_pruning_witness :
  exists e,
    remove_expired_products Strptime.strptime
      (Samples.on_day (Date 2030 1 1)) Fixtures.pantry
    = (Raises e, Fixtures.pantry).
Proof.
  apply (unreadable_date_blocks_pruning Strptime.strptime
           (Samples.on_day (Date 2030 1 1)) Fixtures.pantry
           (KStr "G003") Fixtures.cheese).
  - right. now left.
  - reflexivity.
  - intro today. eexists. reflexivity.
Defined.

Lemma prune_one_day (strptime : string -> outcome date) (clock : nat -> date)
      (today : date) (s : Inventory) :
  NoDup (Dict.keys s) ->
  (forall n, clock n = today) ->
  (forall k p, In (k, p) s -> isinstance_Grocery p = true ->
               readable strptime p) ->
  remove_expired_products strptime clock s
  = (Returns tt, without_expired strptime today s).
Proof.
  intros ND Hc Hr. unfold remove_expired_products. run_method.
  unfold Dict.items.
  rewrite (expired_ids_one_day strptime clock today s Hc Hr 0). simpl.
  now apply for_each_delitem_filter.
Qed.

Lemma NoDup_keys_filter (f : key * Product -> bool) (s : Inventory) :
  NoDup (Dict.keys s) -> NoDup (Dict.keys (filter f s)).
Proof.
  induction s as [|[k p] s IH]; simpl; [trivial|].
  intro ND. inversion ND as [|? ? Hk ND']; subst.
  destruct (f (k, p)); simpl; [|auto].
  constructor; [|auto].
  intro H. apply Hk. unfold Dict.keys in *.
  apply in_map_iff in H as [[k' p'] [E H]]. simpl in E. subst k'.
  apply filter_In in H as [H _].
  change k with (fst (k, p')). now apply in_map.
Qed.

Lemma filter_twice {A} (f : A -> bool) (l : list A) :
  filter f (filter f l) = filter f l.
Proof.
  induction l as [|x l IH]; simpl; [reflexivity|].
  destruct (f x) eqn:E; simpl; [rewrite E|]; now rewrite IH.
Qed.

(** X13. Pruning twice on one day is pruning once: with one date on the
    clock and expiry dates that can be read, a second
    [remove_expired_products] right after the first finds nothing more to
    remove. *)
Theorem pruning_twice_is_pruning_once
        (strptime : string -> outcome date) (clock : nat -> date)
        (today : date) (s : Inventory) :
  NoDup (Dict.keys s) ->
  (forall n, clock n = today) ->
  (forall k p, In (k, p) s -> isinstance_Grocery p = true ->
               readable strptime p) ->
  (remove_expired_products strptime clock ;;;
   remove_expired_products strptime clock) s
  = remove_expired_products strptime clock s.
Proof.
  intros ND Hc Hr. unfold bind.
  rewrite (prune_one_day strptime clock today s ND Hc Hr).
  rewrite (prune_one_day strptime clock today).
  - unfold without_expired. now rewrite filter_twice.
  - now apply NoDup_keys_filter.
  - exact Hc.
  - intros k p H. apply filter_In in H as [H _]. now apply (Hr k p).
Qed.

Lemma pruning_twice_is_pruning_once_witness :
  (remove_expired_products Strptime.strptime
     (Samples.on_day (Date 2024 5 11)) ;;;
   remove_expired_products Strptime.strptime
     (Samples.on_day (Date 2024 5 11))) Samples.sample_inventory
  = remove_expired_products Strptime.strptime
      (Samples.on_day (Date 2024 5 11)) Samples.sample_inventory.
Proof.
  apply (pruning_twice_is_pruning_once Strptime.strptime
           (Samples.on_day (Date 2024 5 11)) (Date 2024 5 11)
           Samples.sample_inventory sample_inventory_keys).
  - reflexivity.
  - intros k p [E | [E | [E | []]]] G; injection E as <- <-;
      try discriminate G.
    intro today. eexists. reflexivity.
Defined.

(** ** More about loading *)

(** What a run of the loop does to the inventory depends on the records
    alone: it files the products of the records up to the first that
    fails. *)
Lemma for_each_load_files (items : list pyval) :
  exists kps r, forall s,
    for_each items load_item s = (r, file_all s kps).
Proof.
  induction items as [|item items [kps [r IH]]].
  - exists [], (Returns tt). reflexivity.
  - destruct (reconstruct item) as [[k p]|e] eqn:R.
    + exists ((k, p) :: kps), r. intro s. simpl. unfold bind.
      rewrite load_item_reconstruct, R. apply IH.
    + exists [], (Raises e). intro s. simpl. unfold bind.
      now rewrite load_item_reconstruct, R.
Qed.

Lemma file_all_NoDup (kps : list (key * Product)) (s : Inventory) :
  NoDup (Dict.keys s) -> NoDup (Dict.keys (file_all s kps)).
Proof.
  revert s. induction kps as [|[k p] kps IH]; intros s ND; [exact ND|].
  simpl. apply IH. now apply NoDup_keys_setitem.
Qed.

Lemma file_all_contains (kps : list (key * Product)) (s : Inventory)
      (k : key) :
  Dict.contains k s = true \/ In k (map fst kps) ->
  Dict.contains k (file_all s kps) = true.
Proof.
  revert s. induction kps as [|[k0 p0] kps IH]; intros s H; simpl.
  - destruct H as [H | []]. exact H.
  - apply IH. simpl in H. rewrite contains_setitem.
    destruct H as [H | [<- | H]].
    + left. now rewrite H.
    + left. rewrite key_eqb_refl. apply orb_true_r.
    + now right.
Qed.

Lemma file_all_keys_present (kps : list (key * Product)) (s : Inventory) :
  (forall k, In k (map fst kps) -> Dict.contains k s = true) ->
  Dict.keys (file_all s kps) = Dict.keys s.
Proof.
  revert s. induction kps as [|[k0 p0] kps IH]; intros s H; [reflexivity|].
  simpl. rewrite IH.
  - apply keys_setitem_present. apply H. now left.
  - intros k Hk. rewrite contains_setitem.
    rewrite (H k); [reflexivity | now right].
Qed.

Lemma file_all_getitem_same (kps : list (key * Product)) (k : key)
      (s s' : Inventory) :
  Dict.getitem k s = Dict.getitem k s' ->
  Dict.getitem k (file_all s kps) = Dict.getitem k (file_all s' kps).
Proof.
  revert s s'. induction kps as [|[k0 p0] kps IH]; intros s s' H; [exact H|].
  simpl. apply IH. rewrite !getitem_setitem. now rewrite H.
Qed.

Lemma file_all_getitem_filed (kps : list (key * Product)) (k : key)
      (s s' : Inventory) :
  In k (map fst kps) ->
  Dict.getitem k (file_all s kps) = Dict.getitem k (file_all s' kps).
Proof.
  revert s s'. induction kps as [|[k0 p0] kps IH]; intros s s' H;
    [contradiction|].
  simpl. destruct (key_eq_dec k0 k) as [-> | N].
  - apply file_all_getitem_same. now rewrite !getitem_setitem_eq.
  - destruct H as [H | H]; [contradiction|]. now apply IH.
Qed.

Lemma file_all_getitem_other (kps : list (key * Product)) (k : key)
      (s : Inventory) :
  ~ In k (map fst kps) ->
  Dict.getitem k (file_all s kps) = Dict.getitem k s.
Proof.
  revert s. induction kps as [|[k0 p0] kps IH]; intros s H; [reflexivity|].
  simpl. rewrite IH.
  - apply getitem_setitem_ne. intros ->. apply H. now left.
  - intro Hk. apply H. now right.
Qed.

Lemma file_all_twice (kps : list (key * Product)) (s : Inventory) :
  NoDup (Dict.keys s) ->
  file_all (file_all s kps) kps = file_all s kps.
Proof.
  intro ND. apply dict_ext.
  - now apply file_all_NoDup, file_all_NoDup.
  - apply file_all_keys_present. intros k Hk.
    apply file_all_contains. now right.
  - intro k. destruct (in_dec key_eq_dec k (map fst kps)) as [H | H].
    + now apply file_all_getitem_filed.
    + now apply file_all_getitem_other.
Qed.

(** X14. Loading a file a second time changes nothing: the inventory and
    the outcome of the second [load_from_file] are those of the first,
    whether the file loads or fails. *)
Theorem load_twice_is_load_once (s : Inventory) (file : outcome pyval) :
  NoDup (Dict.keys s) ->
  load_from_file file (snd (load_from_file file s))
  = load_from_file file s.
Proof.
  intro ND. destruct file as [data|e]; [|reflexivity].
  unfold load_from_file, try_except, bind, lift.
  destruct (iterate data) as [items|e]; [|reflexivity].
  destruct (for_each_load_files items) as [kps [r H]].
  rewrite !H. destruct r as [a|e]; simpl;
    now rewrite (file_all_twice kps s ND).
Qed.

Lemma load_twice_is_load_once_witness :
  load_from_file (Returns Fixtures.rerun_file)
    (snd (load_from_file (Returns Fixtures.rerun_file)
            Samples.sample_inventory))
  = load_from_file (Returns Fixtures.rerun_file) Samples.sample_inventory.
Proof.
  apply (load_twice_is_load_once Samples.sample_inventory
           (Returns Fixtures.rerun_file) sample_inventory_keys).
Defined.

Lemma load_item_outcome (item : pyval) (s : Inventory) :
  fst (load_item item s) = fst (load_item item init).
Proof.
  rewrite !load_item_reconstruct.
  now destruct (reconstruct item) as [[k p]|e].
Qed.

(** X15. A file that is a list loads if and only if each of its records
    loads on its own into a new inventory; what the inventory held before
    plays no part in it. *)
Theorem load_succeeds_iff_every_record_does
        (items : list pyval) (s : Inventory) :
  fst (load_from_file (Returns (PList items)) s) = Returns tt
  <-> Forall (fun item => fst (load_item item init) = Returns tt) items.
Proof.
  rewrite load_from_file_list.
  revert s. induction items as [|item items IH]; intro s; simpl.
  - split; [constructor | reflexivity].
  - unfold bind. pose proof (load_item_outcome item s) as O.
    destruct (load_item item s) as [[[]|e] s1]; simpl in O.
    + rewrite IH. split.
      * intro H. constructor; [now symmetry | exact H].
      * intro H. now inversion H.
    + simpl. split; [discriminate|].
      intro H. inversion H as [|? ? H1 _]; subst. congruence.
Qed.

(** X16. A file that is no list loads only when it is an empty object or an
    empty string, and then it loads nothing; every other document that is
    no list makes [load_from_file] raise [InvalidProductDataError] and
    leaves the inventory as it was. *)
Theorem load_of_a_document_that_is_no_list (data : pyval) (s : Inventory) :
  (forall items, data <> PList items) ->
  (data = PDict [] \/ data = PStr "" ->
     load_from_file (Returns data) s = (Returns tt, s))
  /\ (data <> PDict [] -> data <> PStr "" ->
        exists cause,
          load_from_file (Returns data) s
          = (Raises (InvalidProductDataError (ErrorLoadingData cause)), s)).
Proof.
  intro NL. split.
  - intros [-> | ->]; reflexivity.
  - intros ND NS.
    destruct data as [| b | z | f | str | l | d];
      try (eexists; reflexivity).
    + destruct str as [|c str]; [contradiction|]. eexists. reflexivity.
    + now destruct (NL l).
    + destruct d as [|[k v] d]; [contradiction|]. eexists. reflexivity.
Qed.

Lemma load_of_a_document_that_is_no_list_witness :
  exists cause,
    load_from_file (Returns (PDict [("products", PList [])]))
      Samples.sample_inventory
    = (Raises (InvalidProductDataError (ErrorLoadingData cause)),
       Samples.sample_inventory).
Proof.
  apply (load_of_a_document_that_is_no_list
           (PDict [("products", PList [])]) Samples.sample_inventory);
    discriminate.
Defined.

(** X17. The record that [to_dict] makes of a product carries the name of
    the product's class under [type], then exactly the parameters of the
    constructor of that class, in their order, each once. *)
Theorem to_dict_fields (p : Product) :
  map fst (to_dict p) = "type" :: fields_of (PStr (class_name p))
  /\ lookup "type" (to_dict p) = Some (PStr (class_name p))
  /\ known_tag (PStr (class_name p)) = true
  /\ NoDup (map fst (to_dict p)).
Proof.
  destruct p; repeat split;
    repeat constructor; simpl; intuition discriminate.
Qed.

(** *** The order of the fields of a record *)

Lemma lookup_In (k : string) (v : pyval) (d : record) :
  NoDup (map fst d) -> (lookup k d = Some v <-> In (k, v) d).
Proof.
  induction d as [|[k' v'] d IH]; simpl; intro ND.
  - split; [discriminate | contradiction].
  - inversion ND as [|? ? Hk ND']; subst.
    destruct (String.eqb k k') eqn:E.
    + apply String.eqb_eq in E. subst k'. split.
      * intros [= ->]. now left.
      * intros [[= ->] | H]; [reflexivity|].
        exfalso. apply Hk. change k with (fst (k, v)). now apply in_map.
    + apply String.eqb_neq in E. rewrite (IH ND'). split; [auto|].
      intros [[= -> ->] | H]; [contradiction | exact H].
Qed.

Lemma lookup_None (k : string) (d : record) :
  lookup k d = None <-> ~ In k (map fst d).
Proof.
  induction d as [|[k' v'] d IH]; simpl; [tauto|].
  destruct (String.eqb k k') eqn:E.
  - apply String.eqb_eq in E. subst. split; [discriminate | tauto].
  - apply String.eqb_neq in E. rewrite IH. intuition congruence.
Qed.

Lemma lookup_permutation (k : string) (d d' : record) :
  NoDup (map fst d) -> Permutation d d' -> lookup k d = lookup k d'.
Proof.
  intros ND P.
  assert (NoDup (map fst d')) as ND'
    by (eapply Permutation_NoDup; [apply Permutation_map; exact P | exact ND]).
  destruct (lookup k d) as [v|] eqn:E.
  - symmetry. apply (lookup_In k v d' ND').
    apply (Permutation_in _ P). now apply (lookup_In k v d ND).
  - symmetry. apply lookup_None. intro H. apply lookup_None in E. apply E.
    apply (Permutation_in _ (Permutation_sym (Permutation_map fst P))).
    exact H.
Qed.

Lemma In_discard (k f : string) (v : pyval) (d : record) :
  NoDup (map fst d) ->
  (In (f, v) (discard k d) <-> In (f, v) d /\ f <> k).
Proof.
  induction d as [|[k' v'] d IH]; simpl; intro ND; [tauto|].
  inversion ND as [|? ? Hk ND']; subst.
  destruct (String.eqb k k') eqn:E.
  - apply String.eqb_eq in E. subst k'. split.
    + intro H. split; [now right|]. intros ->. apply Hk.
      change k with (fst (k, v)). now apply in_map.
    + intros [[[= -> ->] | H] N]; [contradiction | exact H].
  - apply String.eqb_neq in E. simpl. rewrite (IH ND'). split.
    + intros [[= -> ->] | [H N]]; [split; [now left | congruence] | tauto].
    + intros [[H | H] N]; [now left | right; tauto].
Qed.

Lemma first_bad_keyword_None (params : list string) (data : record) :
  first_bad_keyword params data = None
  <-> forall k v, In (k, v) data ->
        String.eqb k "self" = false /\ mem k params = true.
Proof.
  induction data as [|[k v] data IH]; simpl.
  - split; [contradiction | reflexivity].
  - destruct (String.eqb k "self") eqn:S.
    + split; [discriminate|]. intro H.
      destruct (H k v (or_introl eq_refl)) as [H1 _]. congruence.
    + destruct (mem k params) eqn:Mk.
      * rewrite IH. split.
        -- intros H k' v' [[= <- <-] | Hin]; [now split | exact (H k' v' Hin)].
        -- intros H k' v' Hin. apply (H k' v'). now right.
      * split; [discriminate|]. intro H.
        destruct (H k v (or_introl eq_refl)) as [_ H2]. congruence.
Qed.

Lemma missing_same (params : list string) (data data' : record) :
  (forall f, lookup f data = lookup f data') ->
  missing params data = missing params data'.
Proof.
  intro H. unfold missing. apply filter_ext. intro f. now rewrite H.
Qed.

(** Binding the same keywords in another order binds every parameter to
    the same value. *)
Lemma bind_keywords_same (params : list string) (data data' : record)
      (arg : string -> pyval) :
  (forall k v, In (k, v) data -> In (k, v) data') ->
  (forall f, lookup f data = lookup f data') ->
  bind_keywords params data' = Returns arg ->
  exists arg', bind_keywords params data = Returns arg'
               /\ forall f, arg' f = arg f.
Proof.
  intros Hin Hl. unfold bind_keywords.
  destruct (first_bad_keyword params data') eqn:B'; [discriminate|].
  assert (first_bad_keyword params data = None) as ->.
  { apply first_bad_keyword_None. intros k v H.
    apply (proj1 (first_bad_keyword_None params data') B' k v).
    now apply Hin. }
  rewrite (missing_same params data data' Hl).
  destruct (missing params data'); [|discriminate].
  intros [= <-]. eexists. split; [reflexivity|].
  intro f. cbv beta. now rewrite Hl.
Qed.

Lemma NoDup_discard (k : string) (d : record) :
  NoDup (map fst d) -> NoDup (map fst (discard k d)).
Proof.
  induction d as [|[k' v'] d IH]; simpl; [trivial|].
  intro ND. inversion ND as [|? ? Hk ND']; subst.
  destruct (String.eqb k k'); simpl; [exact ND'|].
  constructor; [|auto].
  intro H. apply Hk. apply in_map_iff in H as [[f v] [E H]].
  simpl in E. subst f. apply (In_discard k k' v d ND') in H as [H _].
  change k' with (fst (k', v)). now apply in_map.
Qed.

Lemma lookup_same_entries (d d' : record) :
  NoDup (map fst d) -> NoDup (map fst d') ->
  (forall f v, In (f, v) d <-> In (f, v) d') ->
  forall f, lookup f d = lookup f d'.
Proof.
  intros ND ND' H f.
  destruct (lookup f d) as [v|] eqn:E.
  - symmetry. apply (lookup_In f v d' ND'). apply H.
    now apply (lookup_In f v d ND).
  - destruct (lookup f d') as [v'|] eqn:E'; [|reflexivity].
    apply (lookup_In f v' d' ND'), H, (lookup_In f v' d ND) in E'.
    congruence.
Qed.

Lemma create_same (t : pyval) (data data' : record) (p : Product) :
  (forall k v, In (k, v) data -> In (k, v) data') ->
  (forall f, lookup f data = lookup f data') ->
  _create_product_from_dict t data' = Returns p ->
  _create_product_from_dict t data = Returns p.
Proof.
  intros Hin Hl.
  unfold _create_product_from_dict, Electronics_of, Grocery_of, Clothing_of.
  destruct (eq_str t "Electronics");
    [|destruct (eq_str t "Grocery"); [|destruct (eq_str t "Clothing")]];
    try discriminate;
    match goal with
    | |- context [bind_keywords ?ps data'] =>
        destruct (bind_keywords ps data') as [arg|e] eqn:B; simpl;
        [|discriminate];
        destruct (bind_keywords_same ps data data' arg Hin Hl B)
          as [arg' [-> Ha]];
        simpl; rewrite !Ha; trivial
    end.
Qed.

(** X18. The order of the fields of a record does not matter: a record
    that loads, loads to the same product under the same key when its
    fields stand in another order. *)
Theorem field_order_does_not_matter
        (d d' : record) (s : Inventory) :
  NoDup (map fst d) ->
  Permutation d d' ->
  fst (load_item (PDict d) s) = Returns tt ->
  load_item (PDict d') s = load_item (PDict d) s.
Proof.
  intros ND P. rewrite !load_item_reconstruct.
  assert (NoDup (map fst d')) as ND'
    by (eapply Permutation_NoDup; [apply Permutation_map; exact P | exact ND]).
  assert (forall f v, In (f, v) (discard "type" d')
                      <-> In (f, v) (discard "type" d)) as Hin.
  { intros f v. rewrite (In_discard "type" f v d' ND'),
      (In_discard "type" f v d ND).
    split; intros [H N]; split; try exact N.
    - now apply (Permutation_in _ (Permutation_sym P)).
    - now apply (Permutation_in _ P). }
  assert (forall f, lookup f (discard "type" d')
                    = lookup f (discard "type" d)) as Hl.
  { apply lookup_same_entries; try now apply NoDup_discard. exact Hin. }
  unfold reconstruct, pop.
  rewrite <- (lookup_permutation "type" d d' ND P).
  destruct (lookup "type" d) as [t|]; [|discriminate]. simpl.
  destruct (_create_product_from_dict t (discard "type" d)) as [p|e] eqn:C;
    [|discriminate].
  rewrite (create_same t (discard "type" d') (discard "type" d) p
             (fun k v => proj1 (Hin k v)) Hl C).
  reflexivity.
Qed.

Lemma field_order_does_not_matter_witness :
  load_item
    (PDict [("expiry_date", PStr "2024-05-10"); ("name", PStr "Milk");
            ("quantity_in_stock", PInt 20); ("type", PStr "Grocery");
            ("price", PFloat (S754_finite false 7881299347898368 (-51)));
            ("product_id", PStr "G001")])
    init
  = load_item (PDict (to_dict Samples.milk)) init.
Proof.
  apply (field_order_does_not_matter (to_dict Samples.milk)).
  - repeat constructor; simpl; intuition discriminate.
  - simpl.
    apply Permutation_cons_app with
      (l1 := [("expiry_date", PStr "2024-05-10"); ("name", PStr "Milk");
              ("quantity_in_stock", PInt 20)]).
    simpl.
    apply Permutation_cons_app with
      (l1 := [("expiry_date", PStr "2024-05-10"); ("name", PStr "Milk");
              ("quantity_in_stock", PInt 20);
              ("price", PFloat (S754_finite false 7881299347898368 (-51)))]).
    simpl.
    apply Permutation_cons_app with
      (l1 := [("expiry_date", PStr "2024-05-10")]).
    simpl.
    apply Permutation_cons_app with
      (l1 := [("expiry_date", PStr "2024-05-10");
              ("quantity_in_stock", PInt 20)]).
    simpl.
    apply Permutation_cons_app with
      (l1 := [("expiry_date", PStr "2024-05-10")]).
    simpl. apply Permutation_refl.
  - reflexivity.
Defined.

Lemma well_keyed_reachable_witness :
  well_keyed (snd (add_product Samples.phone init)).
Proof.
  apply (proj2 well_keyed_reachable init (proj1 well_keyed_reachable)).
Defined.

(** ** Searching *)

Lemma prefix_spec (a b : string) :
  String.prefix a b = true <-> exists post, b = String.append a post.
Proof.
  revert a. induction b as [|c' b IH]; intros [|c a]; simpl.
  - split; [eauto | reflexivity].
  - split; [discriminate | intros [post H]; discriminate].
  - split; [eauto | reflexivity].
  - destruct (Ascii.ascii_dec c c') as [<- | N].
    + rewrite IH. split; intros [post H]; exists post; congruence.
    + split; [discriminate | intros [post H]; congruence].
Qed.

(** [str_contains] finds the needle exactly when the hay is some str, then
    the needle, then some str. *)
Lemma str_contains_spec (needle hay : string) :
  str_contains needle hay = true
  <-> exists pre post,
        hay = String.append pre (String.append needle post).
Proof.
  induction hay as [|c hay IH].
  - cbn [str_contains]. rewrite orb_false_r, prefix_spec. split.
    + intros [post H]. now exists EmptyString, post.
    + intros [pre [post H]]. destruct pre; [eauto | discriminate].
  - cbn [str_contains]. rewrite orb_true_iff, prefix_spec, IH. split.
    + intros [[post H] | [pre [post H]]].
      * now exists EmptyString, post.
      * exists (String c pre), post. simpl. now rewrite H.
    + intros [pre [post H]]. destruct pre as [|c' pre].
      * left. now exists post.
      * right. exists pre, post. simpl in H. congruence.
Qed.

Section SearchFacts.
Variable lower : string -> string.

Lemma search_names_all_str (name : string) (ps : list Product) :
  Forall (fun p => exists n, _name p = PStr n) ps ->
  search_names lower name ps
  = Returns (filter (fun p => match _name p with
                              | PStr n => str_contains (lower name) (lower n)
                              | _ => false
                              end) ps).
Proof.
  induction 1 as [|p ps [n Hn] _ IH]; [reflexivity|].
  simpl. rewrite Hn, IH. simpl.
  now destruct (str_contains (lower name) (lower n)).
Qed.

(** X19. In an inventory whose products all have a str for a name,
    [search_by_name] returns, in the order of the inventory, exactly the
    products whose lowered name has the lowered search text somewhere
    within it; it raises nothing. *)
Theorem search_by_name_finds (name : string) (s : Inventory) :
  Forall (fun p => exists n, _name p = PStr n) (list_all_products s) ->
  exists found,
    search_by_name lower name s = Returns found
    /\ (exists keep, found = filter keep (list_all_products s))
    /\ forall p,
         In p found
         <-> In p (list_all_products s)
             /\ exists n pre post,
                  _name p = PStr n
                  /\ lower n
                     = String.append pre (String.append (lower name) post).
Proof.
  intro H. unfold search_by_name. fold (list_all_products s).
  rewrite (search_names_all_str name _ H).
  eexists. split; [reflexivity|]. split; [eexists; reflexivity|].
  intro p. rewrite filter_In. split.
  - intros [Hin Hp]. split; [exact Hin|].
    destruct (_name p) as [| | | | n | |]; try discriminate.
    apply str_contains_spec in Hp as [pre [post Hp]]. now exists n, pre, post.
  - intros [Hin [n [pre [post [Hn Hp]]]]]. split; [exact Hin|].
    rewrite Hn. apply str_contains_spec. now exists pre, post.
Qed.

(** X20. One product whose name is no str makes [search_by_name] raise
    [AttributeError], whatever is searched for. *)
Theorem search_by_name_needs_str_names
        (name : string) (s : Inventory) (p : Product) :
  In p (list_all_products s) ->
  (forall n, _name p <> PStr n) ->
  exists type, search_by_name lower name s
               = Raises (AttributeError type "lower").
Proof.
  unfold search_by_name, list_all_products.
  induction (Dict.values s) as [|p0 ps IH]; intros Hin Hp; [contradiction|].
  simpl. destruct Hin as [-> | Hin].
  - destruct (_name p) as [| | | | n | |]; try (eexists; reflexivity).
    now destruct (Hp n).
  - destruct (_name p0) as [| | | | n | |]; try (eexists; reflexivity).
    destruct (IH Hin Hp) as [type ->]. simpl. eauto.
Qed.

End SearchFacts.

Lemma search_by_name_finds_witness :
  exists found,
    search_by_name ascii_lower "MILK" Samples.sample_inventory
    = Returns found
    /\ In Samples.milk found.
Proof.
  destruct (search_by_name_finds ascii_lower "MILK" Samples.sample_inventory)
    as [found [E [_ H]]].
  - repeat constructor; eexists; reflexivity.
  - exists found. split; [exact E|]. apply H. split.
    + right. now left.
    + exists "Milk", EmptyString, EmptyString. split; reflexivity.
Defined.

Lemma search_by_name_needs_str_names_witness :
  exists type,
    search_by_name ascii_lower "phone" Fixtures.lost_and_found
    = Raises (AttributeError type "lower").
Proof.
  apply (search_by_name_needs_str_names ascii_lower "phone"
           Fixtures.lost_and_found Fixtures.nameless).
  - right. now left.
  - discriminate.
Defined.

Section SearchByType.
Variable lower : string -> string.

(** What [str.lower] does to the names of the three classes keeps them
    apart. *)
Hypothesis lower_E_G : lower "Electronics" <> lower "Grocery".
Hypothesis lower_E_C : lower "Electronics" <> lower "Clothing".
Hypothesis lower_G_C : lower "Grocery" <> lower "Clothing".

Lemma class_match (p : Product) (c : string) :
  In c ["Electronics"; "Grocery"; "Clothing"] ->
  String.eqb (lower (class_name p)) (lower c) = String.eqb (class_name p) c.
Proof.
  intros [<- | [<- | [<- | []]]]; destruct p; simpl;
    try (rewrite String.eqb_refl; reflexivity);
    apply String.eqb_neq; congruence.
Qed.

Lemma split_by_class (ps : list Product) :
  Permutation ps
    (filter (fun p => String.eqb (class_name p) "Electronics") ps
     ++ filter (fun p => String.eqb (class_name p) "Grocery") ps
     ++ filter (fun p => String.eqb (class_name p) "Clothing") ps).
Proof.
  induction ps as [|p ps IH]; [constructor|].
  destruct p; simpl.
  - now constructor.
  - now apply Permutation_cons_app.
  - rewrite app_assoc. apply Permutation_cons_app. now rewrite <- app_assoc.
Qed.

(** X21. [search_by_type] sorts the inventory by class: asked for the name
    of a class, in any spelling that lowers to the same text, it returns
    exactly the products of that class, in the order of the inventory;
    every product is in the answer for one of the three classes and no
    other; and a text that lowers to none of the three names finds
    nothing.  It raises nothing. *)
Theorem search_by_type_sorts_by_class (s : Inventory) :
  (forall c t,
      In c ["Electronics"; "Grocery"; "Clothing"] ->
      lower t = lower c ->
      search_by_type lower t s
      = filter (fun p => String.eqb (class_name p) c) (list_all_products s))
  /\ Permutation (list_all_products s)
       (search_by_type lower "Electronics" s
        ++ search_by_type lower "Grocery" s
        ++ search_by_type lower "Clothing" s)
  /\ (forall t,
        ~ In (lower t)
             [lower "Electronics"; lower "Grocery"; lower "Clothing"] ->
        search_by_type lower t s = []).
Proof.
  assert (forall c t,
             In c ["Electronics"; "Grocery"; "Clothing"] ->
             lower t = lower c ->
             search_by_type lower t s
             = filter (fun p => String.eqb (class_name p) c)
                      (list_all_products s)) as Hc.
  { intros c t Hin Ht. unfold search_by_type, list_all_products.
    apply filter_ext. intro p. rewrite Ht. now apply class_match. }
  split; [exact Hc|]. split.
  - rewrite (Hc "Electronics" "Electronics"), (Hc "Grocery" "Grocery"),
      (Hc "Clothing" "Clothing"); simpl; auto.
    apply split_by_class.
  - intros t Ht. unfold search_by_type.
    induction (Dict.values s) as [|p ps IH]; [reflexivity|].
    simpl. rewrite IH.
    assert (String.eqb (lower (class_name p)) (lower t) = false) as ->;
      [|reflexivity].
    apply String.eqb_neq. intro E. apply Ht. rewrite <- E.
    destruct p; simpl; auto.
Qed.

End SearchByType.

Lemma search_by_type_sorts_by_class_witness :
  search_by_type ascii_lower "ELECTRONICS" Samples.sample_inventory
  = filter (fun p => String.eqb (class_name p) "Electronics")
           (list_all_products Samples.sample_inventory).
Proof.
  apply (search_by_type_sorts_by_class ascii_lower); try discriminate.
  - now left.
  - reflexivity.
Defined.

(** ** The value of the inventory *)

Section ValuationFacts.
Variable repeat_seq : pyval -> Z -> outcome pyval.
Variable py_sum : list (outcome pyval) -> outcome pyval.

(** A sum of ints is their sum. *)
Hypothesis sum_of_ints :
  forall zs, py_sum (map (fun z => Returns (PInt z)) zs)
             = Returns (PInt (fold_right Z.add 0 zs)).

Lemma get_total_value_whole (p : Product) :
  in_whole_units p ->
  get_total_value repeat_seq p = Returns (PInt (whole_worth p)).
Proof.
  intros (a & n & Ha & Hn). unfold get_total_value, whole_worth, py_mul.
  now rewrite Ha, Hn.
Qed.

Lemma total_whole (s : Inventory) :
  Forall in_whole_units (list_all_products s) ->
  total_inventory_value repeat_seq py_sum s = Returns (PInt (whole_total s)).
Proof.
  intro H. unfold total_inventory_value, whole_total.
  rewrite <- sum_of_ints. f_equal. rewrite map_map.
  apply map_ext_in. intros p Hp. apply get_total_value_whole.
  rewrite Forall_forall in H. now apply H.
Qed.

(** X22. The value of an inventory whose prices and stocks are ints is the
    sum of price times stock over its products; the value of the empty
    inventory is 0. *)
Theorem total_inventory_value_in_whole_units (s : Inventory) :
  Forall in_whole_units (list_all_products s) ->
  total_inventory_value repeat_seq py_sum s = Returns (PInt (whole_total s))
  /\ total_inventory_value repeat_seq py_sum init = Returns (PInt 0).
Proof.
  intro H. split; [now apply total_whole|].
  apply (total_whole init). constructor.
Qed.

Lemma whole_total_setitem (k : key) (p p' : Product) (s : Inventory) :
  Dict.getitem k s = Some p ->
  whole_total (Dict.setitem k p' s)
  = whole_total s - whole_worth p + whole_worth p'.
Proof.
  unfold whole_total.
  induction s as [|[k0 p0] s IH]; simpl; [discriminate|].
  destruct (key_eqb k k0); simpl.
  - intros [= ->]. lia.
  - intro H. rewrite (IH H). lia.
Qed.

Lemma whole_units_setitem (k : key) (p' : Product) (s : Inventory) :
  in_whole_units p' ->
  Forall in_whole_units (list_all_products s) ->
  Forall in_whole_units (list_all_products (Dict.setitem k p' s)).
Proof.
  intros Hp. unfold list_all_products.
  induction s as [|[k0 p0] s IH]; simpl; intro H.
  - now constructor.
  - inversion H; subst. destruct (key_eqb k k0); simpl; constructor; auto.
Qed.

(** X23. In an inventory priced and counted in ints, a sale that succeeds
    lowers the value of the inventory by the price times the quantity
    sold, and a restock raises it by the price times the amount. *)
Theorem stock_calls_move_the_value
        (s : Inventory) (product_id : pyval) (k : key) (p : Product)
        (a n q : Z) :
  Forall in_whole_units (list_all_products s) ->
  py_hash product_id = Returns k ->
  Dict.getitem k s = Some p ->
  _price p = PInt a ->
  _quantity_in_stock p = PInt n ->
  (q <= n ->
     total_inventory_value repeat_seq py_sum
       (snd (sell_product product_id q s))
     = Returns (PInt (whole_total s - a * q)))
  /\ total_inventory_value repeat_seq py_sum
       (snd (restock_product product_id q s))
     = Returns (PInt (whole_total s + a * q)).
Proof.
  intros Hs Hk Hp Ha Hn.
  assert (forall x, in_whole_units (set_quantity_in_stock (PInt x) p)) as Hu.
  { intro x. exists a, x. split; [now destruct p|].
    apply quantity_set_quantity. }
  assert (forall x, whole_worth (set_quantity_in_stock (PInt x) p) = a * x)
    as Hw.
  { intro x. unfold whole_worth. rewrite quantity_set_quantity.
    now replace (_price (set_quantity_in_stock (PInt x) p)) with (PInt a)
      by (rewrite <- Ha; now destruct p). }
  assert (whole_worth p = a * n) as Hwp
    by (unfold whole_worth; now rewrite Ha, Hn).
  split; [intro Hq|].
  - rewrite (sell_product_found s product_id k p q Hk Hp).
    rewrite (sell_int p n q Hn).
    assert ((q >? n) = false) as -> by lia. simpl.
    rewrite total_whole by (apply whole_units_setitem; auto).
    rewrite (whole_total_setitem k p _ s Hp), Hw, Hwp.
    do 2 f_equal. lia.
  - rewrite (restock_product_found s product_id k p q Hk Hp).
    rewrite (restock_int p n q Hn). simpl.
    rewrite total_whole by (apply whole_units_setitem; auto).
    rewrite (whole_total_setitem k p _ s Hp), Hw, Hwp.
    do 2 f_equal. lia.
Qed.


End ValuationFacts.

Lemma sum_left_of_ints (zs : list Z) :
  sum_left (map (fun z => Returns (PInt z)) zs)
  = Returns (PInt (fold_right Z.add 0 zs)).
Proof.
  unfold sum_left.
  assert (forall acc,
            sum_from (PInt acc) (map (fun z => Returns (PInt z)) zs)
            = Returns (PInt (acc + fold_right Z.add 0 zs))) as H.
  { induction zs as [|z zs IH]; intro acc; simpl.
    - now rewrite Z.add_0_r.
    - rewrite IH. do 2 f_equal. lia. }
  apply (H 0).
Qed.

Lemma stationery_in_whole_units :
  Forall in_whole_units (list_all_products Fixtures.stationery).
Proof.
  repeat constructor; eexists; eexists; split; reflexivity.
Qed.

Lemma total_inventory_value_in_whole_units_witness :
  total_inventory_value repeat_roomy sum_left Fixtures.stationery
  = Returns (PInt 155).
Proof.
  apply (total_inventory_value_in_whole_units repeat_roomy sum_left
           sum_left_of_ints Fixtures.stationery stationery_in_whole_units).
Defined.

Lemma stock_calls_move_the_value_witness :
  total_inventory_value repeat_roomy sum_left
    (snd (sell_product (PStr "P001") 10 Fixtures.stationery))
  = Returns (PInt (155 - 3 * 10)).
Proof.
  apply (stock_calls_move_the_value repeat_roomy sum_left sum_left_of_ints
           Fixtures.stationery (PStr "P001") (KStr "P001") Fixtures.pen
           3 40 10 stationery_in_whole_units); [reflexivity .. | lia].
Defined.

